(** * CryptoTextEngine (src/js/cryptotext.js): a shallow embedding

    The engine is one mutable object driven by a per-frame callback.  Its
    methods are embedded as state transformers over the object's fields and
    the host environment it touches (the output element, the random number
    generator, the animation-frame queue).

    Numbers.  A JavaScript number is embedded as an exact rational or one of
    the three special values [NaN], [+Infinity], [-Infinity].  Arithmetic on
    finite values is exact: binary64 rounding, overflow and the sign of zero
    are outside the model.  Everything proved below about finite numbers is
    therefore a statement about the formulas the code evaluates, up to
    floating-point rounding.  Where rounding decides a property, the pure
    curve functions are embedded a second time over binary64 floats (module
    [Binary64]) and evaluated there. *)

From Stdlib Require Import QArith Qround Qabs Qminmax Lqa ZArith Lia List.
From Stdlib Require Import Floats.
From stdpp Require Import gmap strings list.

Local Open Scope Q_scope.

(** ** JavaScript numbers *)

Module JsNumber.

Inductive number : Type :=
  | Fin (q : Q)
  | PInf
  | NInf
  | NaN.

(** Sign of a rational, as the comparison with zero. *)
Definition Qsign (q : Q) : comparison := q ?= 0.

(** [a + b] *)
Definition add (a b : number) : number :=
  match a, b with
  | NaN, _ | _, NaN => NaN
  | Fin x, Fin y => Fin (x + y)
  | PInf, NInf | NInf, PInf => NaN
  | PInf, _ | _, PInf => PInf
  | NInf, _ | _, NInf => NInf
  end.

(** unary minus *)
Definition neg (a : number) : number :=
  match a with
  | Fin x => Fin (- x)
  | PInf => NInf
  | NInf => PInf
  | NaN => NaN
  end.

(** [a - b] *)
Definition sub (a b : number) : number := add a (neg b).

(** An infinity of the sign [s]; zero times infinity is [NaN]. *)
Definition inf_of_sign (s : comparison) : number :=
  match s with
  | Gt => PInf
  | Lt => NInf
  | Eq => NaN
  end.

(** [a * b] *)
Definition mul (a b : number) : number :=
  match a, b with
  | NaN, _ | _, NaN => NaN
  | Fin x, Fin y => Fin (x * y)
  | Fin x, PInf | PInf, Fin x => inf_of_sign (Qsign x)
  | Fin x, NInf | NInf, Fin x => inf_of_sign (CompOpp (Qsign x))
  | PInf, PInf | NInf, NInf => PInf
  | PInf, NInf | NInf, PInf => NInf
  end.

(** [a / b]; a zero divisor is taken as [+0]. *)
Definition div (a b : number) : number :=
  match a, b with
  | NaN, _ | _, NaN => NaN
  | Fin x, Fin y =>
      if Qeq_bool y 0 then inf_of_sign (Qsign x) else Fin (x / y)
  | Fin _, PInf | Fin _, NInf => Fin 0
  | PInf, Fin y => if Qle_bool 0 y then PInf else NInf
  | NInf, Fin y => if Qle_bool 0 y then NInf else PInf
  | _, _ => NaN
  end.

(** [a < b]: false as soon as one side is [NaN]. *)
Definition lt (a b : number) : bool :=
  match a, b with
  | NaN, _ | _, NaN => false
  | Fin x, Fin y => negb (Qle_bool y x)
  | NInf, Fin _ | NInf, PInf | Fin _, PInf => true
  | _, _ => false
  end.

(** [a > b] *)
Definition gt (a b : number) : bool := lt b a.

(** [Number.isNaN(a)] on a number *)
Definition isNaN (a : number) : bool :=
  match a with
  | NaN => true
  | _ => false
  end.

(** Truthiness of a number: [0] and [NaN] are falsy. *)
Definition truthy (a : number) : bool :=
  match a with
  | Fin x => negb (Qeq_bool x 0)
  | NaN => false
  | PInf | NInf => true
  end.

(** [a || b] on numbers *)
Definition or_else (a b : number) : number := if truthy a then a else b.

(** [Math.abs(a)] *)
Definition abs (a : number) : number :=
  match a with
  | Fin x => Fin (Qabs x)
  | PInf | NInf => PInf
  | NaN => NaN
  end.

(** [Math.floor(a)] *)
Definition floor (a : number) : number :=
  match a with
  | Fin x => Fin (inject_Z (Qfloor x))
  | other => other
  end.

(** [Math.max(a, b)] *)
Definition max (a b : number) : number :=
  match a, b with
  | NaN, _ | _, NaN => NaN
  | _, _ => if lt a b then b else a
  end.

(** Numeric equality of two numbers ([NaN] is not equal to itself in the
    language; here it only serves to compare results of the model). *)
Definition eqv (a b : number) : Prop :=
  match a, b with
  | Fin x, Fin y => x == y
  | PInf, PInf | NInf, NInf | NaN, NaN => True
  | _, _ => False
  end.

(** The number is finite and lies in the closed unit interval. *)
Definition in_unit (a : number) : Prop :=
  match a with
  | Fin x => 0 <= x <= 1
  | _ => False
  end.

(** The number is finite. *)
Definition finite (a : number) : Prop :=
  match a with
  | Fin _ => True
  | _ => False
  end.

End JsNumber.

Import JsNumber.

Declare Scope js_scope.
Delimit Scope js_scope with js.
Bind Scope js_scope with number.
Infix "+" := add : js_scope.
Infix "-" := sub : js_scope.
Infix "*" := mul : js_scope.
Infix "/" := div : js_scope.
Infix "<?" := lt : js_scope.
Infix ">?" := gt (at level 70) : js_scope.
Infix "||" := or_else : js_scope.

(** Numeric literals of the source. *)
Coercion Fin : Q >-> number.

(** ** Pure helpers of the class *)

(** [_clamp01(v)] *)
Definition _clamp01 (v : number) : number :=
  if (v <? Fin 0)%js then Fin 0
  else if (v >? Fin 1)%js then Fin 1
  else v.

(** [_smooth01(x)] *)
Definition _smooth01 (x : number) : number :=
  let x := _clamp01 x in
  (x * x * (Fin 3 - Fin 2 * x))%js.

(** [_computeRevealPhase(phase)] *)
Definition _computeRevealPhase (phase : number) : number :=
  if (phase <? Fin 0.5)%js
  then _smooth01 (phase / Fin 0.5)%js
  else _smooth01 ((Fin 1 - phase) / Fin 0.5)%js.

(** ** The same helpers over binary64

    The three pure methods once more, on the primitive binary64 floats, with
    the rounding of every operation. *)

Module Binary64.

(** [_clamp01(v)] *)
Definition _clamp01 (v : float) : float :=
  if PrimFloat.ltb v 0%float then 0%float
  else if PrimFloat.ltb 1%float v then 1%float
  else v.

(** [_smooth01(x)] *)
Definition _smooth01 (x : float) : float :=
  let x := _clamp01 x in
  (x * x * (3 - 2 * x))%float.

(** [_computeRevealPhase(phase)] *)
Definition _computeRevealPhase (phase : float) : float :=
  if PrimFloat.ltb phase 0.5%float
  then _smooth01 (phase / 0.5)%float
  else _smooth01 ((1 - phase) / 0.5)%float.


End Binary64.

(** ** Strings and dynamically typed values *)

(** A string is its sequence of UTF-16 code units: [s.length], [s[i]] and
    [s.slice] count and index code units. *)
Definition codeunit : Type := N.
Definition jsstring : Type := list codeunit.

(** The string ['undefined'], which [out += undefined] appends. *)
Definition undefined_text : jsstring :=
  [117; 110; 100; 101; 102; 105; 110; 101; 100]%N.

(** [s.length] as a number *)
Definition length_number (s : jsstring) : number :=
  Fin (inject_Z (Z.of_nat (length s))).

(** Integer part of a rational, rounding towards zero. *)
Definition Qtruncate (q : Q) : Z :=
  if Qle_bool 0 q then Qfloor q else Qceiling q.

(** [s.slice(0, e)]: a [NaN] end counts as 0, a negative end counts from the
    end of the string, and the end is capped at the length. *)
Definition slice_to (s : jsstring) (e : number) : jsstring :=
  match e with
  | NaN | NInf => []
  | PInf => s
  | Fin q =>
      let k := Qtruncate q in
      if (k <? 0)%Z
      then take (Z.to_nat (Z.max (Z.of_nat (length s) + k) 0)) s
      else take (Z.to_nat k) s
  end.

(** [s[idx]] appended to a string: the code unit at an integer index within
    range, the text ['undefined'] anywhere else. *)
Definition char_at_text (s : jsstring) (idx : number) : jsstring :=
  match idx with
  | Fin q =>
      if Qeq_bool q (inject_Z (Qfloor q)) && (0 <=? Qfloor q)%Z
      then match s !! Z.to_nat (Qfloor q) with
           | Some c => [c]
           | None => undefined_text
           end
      else undefined_text
  | _ => undefined_text
  end.

(** The values a caller can pass where the code inspects the type at run
    time.  Arrays hold strings, the element type the class documents for its
    [lines]. *)
Inductive value : Type :=
  | VUndefined
  | VNull
  | VBoolean (b : bool)
  | VNumber (n : number)
  | VString (s : jsstring)
  | VArray (xs : list jsstring)
  | VObject.

Inductive jstype : Type :=
  | TUndefined
  | TObject
  | TBoolean
  | TNumber
  | TString.

(** [typeof v] *)
Definition typeof (v : value) : jstype :=
  match v with
  | VUndefined => TUndefined
  | VNull | VArray _ | VObject => TObject
  | VBoolean _ => TBoolean
  | VNumber _ => TNumber
  | VString _ => TString
  end.

(** [Array.isArray(v) && v.length]: the elements of a non-empty array. *)
Definition nonempty_array (v : value) : option (list jsstring) :=
  match v with
  | VArray (x :: xs) => Some (x :: xs)
  | _ => None
  end.

(** What calling a callback does: it returns a value or it throws. *)
Inductive outcome (A : Type) : Type :=
  | Returns (v : A)
  | Throws.
Arguments Returns {A} v.
Arguments Throws {A}.

(** ** The object and its host *)

(** The fields of an engine instance.  [index] is only ever assigned [0] or
    a remainder modulo a positive length, hence a natural number; the
    controls hold numbers, the type the class documents for them, under
    their property names. *)
Record Engine : Type := mkEngine {
  lines : list jsstring;
  duration : number;
  (** the energy callback, as a function of the number of earlier calls *)
  getEnergy : nat -> outcome value;
  controls : gmap string number;
  glitchGlyphs : jsstring;
  index : nat;
  elapsed : number;
  running : bool;
  (** [null] or the timestamp of the previous frame *)
  _lastTs : option number
}.

(** What the engine touches outside itself. *)
Record World : Type := mkWorld {
  (** [el.textContent] of the output element *)
  textContent : jsstring;
  (** how many times [Math.random] has been called *)
  random_calls : nat;
  (** how many times the energy callback has been called *)
  energy_calls : nat;
  (** how many callbacks [requestAnimationFrame] has queued *)
  frame_requests : nat
}.

Record State : Type := mkState {
  this : Engine;
  host : World
}.

Definition set_lines (v : list jsstring) (e : Engine) : Engine :=
  mkEngine v (duration e) (getEnergy e) (controls e) (glitchGlyphs e)
           (index e) (elapsed e) (running e) (_lastTs e).
Definition set_getEnergy (v : nat -> outcome value) (e : Engine) : Engine :=
  mkEngine (lines e) (duration e) v (controls e) (glitchGlyphs e)
           (index e) (elapsed e) (running e) (_lastTs e).
Definition set_controls (v : gmap string number) (e : Engine) : Engine :=
  mkEngine (lines e) (duration e) (getEnergy e) v (glitchGlyphs e)
           (index e) (elapsed e) (running e) (_lastTs e).
Definition set_index (v : nat) (e : Engine) : Engine :=
  mkEngine (lines e) (duration e) (getEnergy e) (controls e) (glitchGlyphs e)
           v (elapsed e) (running e) (_lastTs e).
Definition set_elapsed (v : number) (e : Engine) : Engine :=
  mkEngine (lines e) (duration e) (getEnergy e) (controls e) (glitchGlyphs e)
           (index e) v (running e) (_lastTs e).
Definition set_running (v : bool) (e : Engine) : Engine :=
  mkEngine (lines e) (duration e) (getEnergy e) (controls e) (glitchGlyphs e)
           (index e) (elapsed e) v (_lastTs e).
Definition set_lastTs (v : option number) (e : Engine) : Engine :=
  mkEngine (lines e) (duration e) (getEnergy e) (controls e) (glitchGlyphs e)
           (index e) (elapsed e) (running e) v.

Definition set_textContent (v : jsstring) (w : World) : World :=
  mkWorld v (random_calls w) (energy_calls w) (frame_requests w).
Definition next_random (w : World) : World :=
  mkWorld (textContent w) (S (random_calls w)) (energy_calls w)
          (frame_requests w).
Definition next_energy (w : World) : World :=
  mkWorld (textContent w) (random_calls w) (S (energy_calls w))
          (frame_requests w).
Definition queue_frame (w : World) : World :=
  mkWorld (textContent w) (random_calls w) (energy_calls w)
          (S (frame_requests w)).

(** ** Methods as state transformers

    A method reads and writes the state and returns a result; [None] stands
    for a call that has not returned within the fuel given to the only loop
    that can run forever, the one of [_update]. *)
Definition M (A : Type) : Type := State -> option (A * State).

Definition ret {A : Type} (a : A) : M A := fun s => Some (a, s).

Definition bind {A B : Type} (m : M A) (k : A -> M B) : M B :=
  fun s =>
    match m s with
    | Some (a, s') => k a s'
    | None => None
    end.

Notation "x <- m ;; k" := (bind m (fun x => k))
  (at level 100, m at next level, right associativity).
Notation "m ;;; k" := (bind m (fun _ => k))
  (at level 100, right associativity).

(** Read a field of [this]. *)
Definition read {A : Type} (f : Engine -> A) : M A :=
  fun s => Some (f (this s), s).

(** Assign a field of [this]. *)
Definition write (f : Engine -> Engine) : M unit :=
  fun s => Some (tt, mkState (f (this s)) (host s)).

(** Act on the host. *)
Definition effect (f : World -> World) : M unit :=
  fun s => Some (tt, mkState (this s) (f (host s))).

(** [requestAnimationFrame(this._loop)] *)
Definition requestAnimationFrame : M unit := effect queue_frame.

(** The separators the glitch leaves alone: the code units of
    ['  /\\|:-—·,']. *)
Definition separators : jsstring :=
  [32; 160; 47; 92; 124; 58; 45; 8212; 183; 44]%N.

(** [separators.includes(ch)] for a one-unit string [ch] *)
Definition is_separator (ch : codeunit) : bool :=
  existsb (N.eqb ch) separators.

(** The glyph palette assigned in the constructor, the code units of
    ['01ΔΣΞΩ≈∿λµΩƒ≋▌▐▒░▓█#/%\\|+<>⧉⧖⧈◊⌁⌂↯']. *)
Definition default_glyphs : jsstring :=
  [
    48; 49; 916; 931; 926; 937; 8776; 8767; 955; 181; 937; 402; 8779; 9612;
    9616; 9618; 9617; 9619; 9608; 35; 47; 37; 92; 124; 43; 60; 62; 10697;
    10710; 10696; 9674; 8961; 8962; 8623
  ]%N.

(** [this.controls.textSpeed || 1.0] and [this.controls.textGlitch || 0]: a
    missing property reads as [undefined], which is falsy. *)
Definition control_or (name : string) (dflt : number) (e : Engine) : number :=
  match controls e !! name with
  | Some v => (v || dflt)%js
  | None => dflt
  end.

(** Constructor options.  [element] tells whether an output element was
    passed; [getEnergy] is [Some f] when a function was passed. *)
Module Options.
Record t : Type := make {
  element : bool;
  lines : value;
  duration : value;
  getEnergy : option (nat -> outcome value);
  controls : option (gmap string number)
}.
End Options.

(** ['ABSTRACT HACKERS RADIO // CHANNEL: 0x1F | MODE: LIQUID BLUEPRINT EQ'] *)
Definition default_line_0 : jsstring :=
  [
    65; 66; 83; 84; 82; 65; 67; 84; 32; 72; 65; 67; 75; 69; 82; 83; 32; 82;
    65; 68; 73; 79; 32; 47; 47; 32; 67; 72; 65; 78; 78; 69; 76; 58; 32; 48;
    120; 49; 70; 32; 124; 32; 77; 79; 68; 69; 58; 32; 76; 73; 81; 85; 73;
    68; 32; 66; 76; 85; 69; 80; 82; 73; 78; 84; 32; 69; 81
  ]%N.

(** ['STREAM ROUTING: WEB_RADIO ⇒ TERMINAL_UI ⇒ LIQUID_EQUALIZER ⇒ LISTENER'] *)
Definition default_line_1 : jsstring :=
  [
    83; 84; 82; 69; 65; 77; 32; 82; 79; 85; 84; 73; 78; 71; 58; 32; 87; 69;
    66; 95; 82; 65; 68; 73; 79; 32; 8658; 32; 84; 69; 82; 77; 73; 78; 65;
    76; 95; 85; 73; 32; 8658; 32; 76; 73; 81; 85; 73; 68; 95; 69; 81; 85;
    65; 76; 73; 90; 69; 82; 32; 8658; 32; 76; 73; 83; 84; 69; 78; 69; 82
  ]%N.

(** ['NO AUDIO INPUT BOUND — SYNTHETIC PROBABILISTIC EQ MODE'] *)
Definition default_line_2 : jsstring :=
  [
    78; 79; 32; 65; 85; 68; 73; 79; 32; 73; 78; 80; 85; 84; 32; 66; 79; 85;
    78; 68; 32; 8212; 32; 83; 89; 78; 84; 72; 69; 84; 73; 67; 32; 80; 82;
    79; 66; 65; 66; 73; 76; 73; 83; 84; 73; 67; 32; 69; 81; 32; 77; 79; 68;
    69
  ]%N.

(** ['SESSION LOG: WIREFRAME GRID ACTIVE / PARTICLE FEED REROUTED TO EQ'] *)
Definition default_line_3 : jsstring :=
  [
    83; 69; 83; 83; 73; 79; 78; 32; 76; 79; 71; 58; 32; 87; 73; 82; 69; 70;
    82; 65; 77; 69; 32; 71; 82; 73; 68; 32; 65; 67; 84; 73; 86; 69; 32; 47;
    32; 80; 65; 82; 84; 73; 67; 76; 69; 32; 70; 69; 69; 68; 32; 82; 69; 82;
    79; 85; 84; 69; 68; 32; 84; 79; 32; 69; 81
  ]%N.

(** ['SCANNING PORTS 8000–8100 FOR LIVE STREAM ENDPOINTS…'] *)
Definition default_line_4 : jsstring :=
  [
    83; 67; 65; 78; 78; 73; 78; 71; 32; 80; 79; 82; 84; 83; 32; 56; 48; 48;
    48; 8211; 56; 49; 48; 48; 32; 70; 79; 82; 32; 76; 73; 86; 69; 32; 83;
    84; 82; 69; 65; 77; 32; 69; 78; 68; 80; 79; 73; 78; 84; 83; 8230
  ]%N.

(** ['PIPELINE: GRID_OSCILLATOR × PARTICLE_FIELD × CRYPTO_TYPING_ENGINE'] *)
Definition default_line_5 : jsstring :=
  [
    80; 73; 80; 69; 76; 73; 78; 69; 58; 32; 71; 82; 73; 68; 95; 79; 83; 67;
    73; 76; 76; 65; 84; 79; 82; 32; 215; 32; 80; 65; 82; 84; 73; 67; 76;
    69; 95; 70; 73; 69; 76; 68; 32; 215; 32; 67; 82; 89; 80; 84; 79; 95;
    84; 89; 80; 73; 78; 71; 95; 69; 78; 71; 73; 78; 69
  ]%N.

(** The built-in line set of the constructor. *)
Definition default_lines : list jsstring :=
  [default_line_0; default_line_1; default_line_2;
   default_line_3; default_line_4; default_line_5].

(** The controls the constructor starts from:
    [{ textSpeed: 1.0, textGlitch: 0.3 }]. *)
Definition default_controls : gmap string number :=
  <["textSpeed" := Fin 1.0]> (<["textGlitch" := Fin 0.3]> ∅).

(** [new CryptoTextEngine(options)]: the new object, or the thrown error
    when no element is given. *)
Definition constructor (options : Options.t) : outcome Engine :=
  if negb (Options.element options) then Throws
  else
    Returns {|
      lines :=
        match nonempty_array (Options.lines options) with
        | Some xs => xs
        | None => default_lines
        end;
      duration :=
        match Options.duration options with
        | VNumber d => if (d >? Fin 0)%js then d else Fin 11.0
        | _ => Fin 11.0
        end;
      getEnergy :=
        match Options.getEnergy options with
        | Some f => f
        | None => fun _ => Returns (VNumber (Fin 0))
        end;
      (* Object.assign(defaults, options.controls || {}): each own property
         of the options is assigned to the defaults; an own property named
         __proto__ reaches the inherited setter, which discards a number *)
      controls := delete "__proto__"
                    (default (∅ : gmap string number) (Options.controls options))
                    ∪ default_controls;
      glitchGlyphs := default_glyphs;
      index := 0;
      elapsed := Fin 0;
      running := false;
      _lastTs := None
    |}.

(** *** Public methods *)

(** [start()] *)
Definition start : M unit :=
  r <- read running ;;
  if r then ret tt
  else
    write (set_running true) ;;;
    write (set_lastTs None) ;;;
    requestAnimationFrame.

(** [stop()] *)
Definition stop : M unit :=
  write (set_running false).

(** [reset()] *)
Definition reset : M unit :=
  write (set_index 0) ;;;
  write (set_elapsed (Fin 0)).

(** [setLines(lines)] *)
Definition setLines (arg : value) : M unit :=
  match nonempty_array arg with
  | Some xs =>
      write (set_lines xs) ;;;
      reset
  | None => ret tt
  end.

(** [this.controls[name] = value] for a number: the assignment creates or
    overwrites an own property, except under the name [__proto__], where the
    inherited setter discards any value that is not an object. *)
Definition assign_control (name : string) (v : number)
    (c : gmap string number) : gmap string number :=
  if String.eqb name "__proto__" then c else <[name := v]> c.

(** [setControl(name, value)] *)
Definition setControl (name : string) (v : value) : M unit :=
  match v with
  | VNumber n => write (fun e => set_controls (assign_control name n (controls e)) e)
  | _ => ret tt (* typeof value !== 'number' *)
  end.

Section Methods.

(** The host's [Math.sin], and the numbers successive calls of
    [Math.random] return. *)
Variable Math_sin : number -> number.
Variable random_stream : nat -> Q.

(** [Math.random()] *)
Definition Math_random : M number :=
  fun s =>
    Some (Fin (random_stream (random_calls (host s))),
          mkState (this s) (next_random (host s))).

(** [this.getEnergy()] *)
Definition call_getEnergy : M (outcome value) :=
  fun s =>
    Some (getEnergy (this s) (energy_calls (host s)),
          mkState (this s) (next_energy (host s))).

(** [_safeEnergy()] *)
Definition _safeEnergy : M number :=
  r <- call_getEnergy ;;
  match r with
  | Returns (VNumber v) =>
      if isNaN v then ret (Fin 0) else ret (_clamp01 v)
  | Returns _ => ret (Fin 0) (* typeof v !== 'number' *)
  | Throws => ret (Fin 0) (* catch (e) *)
  end.

(** The body of the [for] loop of [_applyGlitch], from position [i] on, with
    [rest] the characters still to visit and [out] the text built so far. *)
Fixpoint _applyGlitch_for (glitchIntensity t : number) (glyphs : jsstring)
    (rest : jsstring) (i : nat) (out : jsstring) : M jsstring :=
  match rest with
  | [] => ret out
  | ch :: rest' =>
      if is_separator ch
      then _applyGlitch_for glitchIntensity t glyphs rest' (S i) (out ++ [ch])
      else
        let local :=
          ((Math_sin (t * Fin 1.7
                      + Fin (inject_Z (Z.of_nat i)) * Fin 13.37)
            + Fin 1) * Fin 0.5)%js in
        let prob := (glitchIntensity * local)%js in
        r <- Math_random ;;
        if (r <? prob)%js then
          r' <- Math_random ;;
          let idx := floor (r' * length_number glyphs)%js in
          _applyGlitch_for glitchIntensity t glyphs rest' (S i)
                           (out ++ char_at_text glyphs idx)
        else
          _applyGlitch_for glitchIntensity t glyphs rest' (S i) (out ++ [ch])
  end.

(** The intensity [_applyGlitch] computes before its loop, with
    [base = this.controls.textGlitch || 0]. *)
Definition glitchIntensity (e : Engine) (phase energy : number) : number :=
  let base := control_or "textGlitch" (Fin 0) e in
  let centerWeight := (Fin 1 - abs (phase - Fin 0.5) * Fin 2)%js in
  _clamp01 (base * Fin 0.7
            + energy * Fin 0.6 * (Fin 0.3 + Fin 0.7 * centerWeight))%js.

(** [_applyGlitch(visibleText, phase, energy)] *)
Definition _applyGlitch (visibleText : jsstring) (phase energy : number)
    : M jsstring :=
  intensity <- read (fun e => glitchIntensity e phase energy) ;;
  glyphs <- read glitchGlyphs ;;
  t <- read elapsed ;;
  _applyGlitch_for intensity t glyphs visibleText 0 [].

(** [this.lines[this.index] || ''] *)
Definition current_line (e : Engine) : jsstring :=
  default [] (lines e !! index e).

(** [getCurrentRenderedText()] *)
Definition getCurrentRenderedText : M jsstring :=
  line <- read current_line ;;
  e <- read elapsed ;;
  d <- read duration ;;
  let phase := (e / d)%js in
  let revealPhase := _computeRevealPhase phase in
  let visibleLen := floor (length_number line * revealPhase)%js in
  let baseVisible := slice_to line visibleLen in
  energy <- _safeEnergy ;;
  _applyGlitch baseVisible phase energy.

(** [baseSpeed * (0.6 + 0.8 * energy)] with
    [baseSpeed = this.controls.textSpeed || 1.0] *)
Definition effectiveSpeed (e : Engine) (energy : number) : number :=
  (control_or "textSpeed" (Fin 1.0) e * (Fin 0.6 + Fin 0.8 * energy))%js.

(** The [while] loop of [_update].  On an empty [lines] the remainder would
    be [NaN]; no engine has one, as is proved below. *)
Fixpoint _update_while (fuel : nat) : M unit :=
  fun s =>
    if (elapsed (this s) >? duration (this s))%js then
      match fuel with
      | O => None
      | S fuel' =>
          (write (fun e => set_elapsed (elapsed e - duration e)%js e) ;;;
           write (fun e =>
                    set_index ((index e + 1) mod length (lines e))%nat e) ;;;
           _update_while fuel') s
      end
    else Some (tt, s).

(** [_update(dt)] *)
Definition _update (fuel : nat) (dt : number) : M unit :=
  energy <- _safeEnergy ;;
  speed <- read (fun e => effectiveSpeed e energy) ;;
  write (fun e => set_elapsed (elapsed e + dt * speed)%js e) ;;;
  _update_while fuel.

(** [_render()] *)
Definition _render : M unit :=
  line <- read current_line ;;
  match line with
  | [] => effect (set_textContent [])
  | _ =>
      e <- read elapsed ;;
      d <- read duration ;;
      let phase := (e / d)%js in
      let revealPhase := _computeRevealPhase phase in
      let visibleLen :=
        max (Fin 0) (floor (length_number line * revealPhase)%js) in
      let baseVisible := slice_to line visibleLen in
      energy <- _safeEnergy ;;
      glitched <- _applyGlitch baseVisible phase energy ;;
      effect (set_textContent glitched)
  end.

(** [_loop(ts)], the frame callback: one tick. *)
Definition _loop (fuel : nat) (ts : number) : M unit :=
  r <- read running ;;
  if negb r then ret tt
  else
    last <- read _lastTs ;;
    match last with
    | None => write (set_lastTs (Some ts))
    | Some _ => ret tt
    end ;;;
    last <- read _lastTs ;;
    (* [null] would count as 0 in the subtraction; it is never read here *)
    let dt := max (Fin 0.001) ((ts - default (Fin 0) last) / Fin 1000)%js in
    write (set_lastTs (Some ts)) ;;;
    _update fuel dt ;;;
    _render ;;;
    requestAnimationFrame.

End Methods.

(** The index after [k] passes through the loop of [_update] over [len]
    lines. *)
Definition wrap_index (len k i : nat) : nat :=
  Nat.iter k (fun j => ((j + 1) mod len)%nat) i.

(** ** The specification's reading of the operations *)

(** The wrap of the timeline in the words of the specification: while
    [elapsed >= lineDuration], subtract [lineDuration] from [elapsed] and set
    [index] to [(index + 1) mod length(lines)]. *)
Fixpoint advance_spec_while (fuel : nat) (d : Q) (len : nat) (e : Q) (i : nat)
    : option (Q * nat) :=
  if Qle_bool d e then
    match fuel with
    | O => None
    | S fuel' =>
        advance_spec_while fuel' d len (e - d) ((i + 1) mod len)%nat
    end
  else Some (e, i).

(** The sampled energy in the words of the specification: 0 when the call
    fails or returns something that is not a number or is [NaN], the returned
    value clamped into the unit interval otherwise. *)
Definition clamp_unit_spec (n : number) : number :=
  match n with
  | Fin q => Fin (Qmax 0 (Qmin q 1))
  | PInf => Fin 1
  | NInf => Fin 0
  | NaN => NaN
  end.

Definition sampled_energy_spec (call : outcome value) : number :=
  match call with
  | Throws => Fin 0
  | Returns v =>
      match v with
      | VNumber n => if isNaN n then Fin 0 else clamp_unit_spec n
      | _ => Fin 0
      end
  end.

(** ** Sample engines

    The scenario of the specification: three lines, ten seconds a line, no
    static glitch, a constant energy. *)

Definition three_lines : list jsstring :=
  [[65; 45; 49]; [66; 32; 50]; [67; 47; 51]]%N.

Definition sample_engine (textSpeed energy : number) : Engine :=
  {| lines := three_lines;
     duration := Fin 10;
     getEnergy := fun _ => Returns (VNumber energy);
     controls := <["textSpeed" := textSpeed]> (<["textGlitch" := Fin 0]> ∅);
     glitchGlyphs := default_glyphs;
     index := 0;
     elapsed := Fin 0;
     running := false;
     _lastTs := None |}.

(** A host on which nothing has happened yet. *)
Definition fresh_world : World := mkWorld [] 0 0 0.

Definition sample_state (textSpeed energy : number) : State :=
  mkState (sample_engine textSpeed energy) fresh_world.

(** The sample engine with another energy callback. *)
Definition sample_with_provider (f : nat -> outcome value) : State :=
  mkState (set_getEnergy f (sample_engine (Fin 1) (Fin 0))) fresh_world.

(** ** Calls from outside and the states they lead to *)

(** The operations a client or the frame driver performs on an engine. *)
Inductive call : Type :=
  | CallStart
  | CallStop
  | CallReset
  | CallSetLines (arg : value)
  | CallSetControl (name : string) (v : value)
  | CallGetCurrentRenderedText
  | CallTick (fuel : nat) (ts : number).

Definition perform (Math_sin : number -> number) (random_stream : nat -> Q)
    (c : call) : M unit :=
  match c with
  | CallStart => start
  | CallStop => stop
  | CallReset => reset
  | CallSetLines arg => setLines arg
  | CallSetControl name v => setControl name v
  | CallGetCurrentRenderedText =>
      getCurrentRenderedText Math_sin random_stream ;;; ret tt
  | CallTick fuel ts => _loop Math_sin random_stream fuel ts
  end.

(** The states of an engine's life: the result of a successful construction,
    on any host, and what calls that return make of it. *)
Inductive reachable (Math_sin : number -> number) (random_stream : nat -> Q)
    : State -> Prop :=
  | reachable_new (options : Options.t) (e : Engine) (w : World) :
      constructor options = Returns e ->
      reachable Math_sin random_stream (mkState e w)
  | reachable_call (s : State) (c : call) (s' : State) :
      reachable Math_sin random_stream s ->
      perform Math_sin random_stream c s = Some (tt, s') ->
      reachable Math_sin random_stream s'.

(** The host differs at most in how often [Math.random] was called. *)
Definition only_random_drawn (w w' : World) : Prop :=
  textContent w' = textContent w /\
  energy_calls w' = energy_calls w /\
  frame_requests w' = frame_requests w.

(** Options of a sample construction: an element and nothing else. *)
Definition sample_options : Options.t :=
  Options.make true VUndefined VUndefined None None.

(** A sequence of calls, one after the other; [None] when one of them does
    not return. *)
Fixpoint perform_all (Math_sin : number -> number) (random_stream : nat -> Q)
    (cs : list call) (s : State) : option State :=
  match cs with
  | [] => Some s
  | c :: cs' =>
      match perform Math_sin random_stream c s with
      | Some (_, s') => perform_all Math_sin random_stream cs' s'
      | None => None
      end
  end.

(** A sample life: construction with the defaults, new lines, a start, a
    first frame at 0 ms and a second one 25 s later, which passes two
    lines. *)
Definition sample_new : State :=
  match constructor sample_options with
  | Returns e => mkState e fresh_world
  | Throws => sample_state (Fin 1) (Fin 0)
  end.

Definition sample_history : list call :=
  [CallSetLines (VArray three_lines); CallSetControl "textSpeed" (VNumber (Fin 2));
   CallStart; CallTick 0 (Fin 0); CallTick 3 (Fin 25000);
   CallGetCurrentRenderedText; CallStop].

Definition sample_reached : State :=
  default sample_new
    (perform_all (fun _ => Fin 1) (fun _ => 0.5) sample_history sample_new).

(** Two engines differ at most in the timeline, that is in [index] and
    [elapsed]. *)
Definition same_but_timeline (e e' : Engine) : Prop :=
  lines e' = lines e /\
  duration e' = duration e /\
  getEnergy e' = getEnergy e /\
  controls e' = controls e /\
  glitchGlyphs e' = glitchGlyphs e /\
  running e' = running e /\
  _lastTs e' = _lastTs e.

(** The sample engine running, with the previous frame at 1000 ms. *)
Definition sample_running : State :=
  mkState (set_lastTs (Some (Fin 1000))
             (set_running true (sample_engine (Fin 1) (Fin 0.5))))
          fresh_world.

(** An intensity at which the glitch cannot fire: zero, or [NaN]. *)
Definition quiet (gi : number) : Prop :=
  match gi with
  | Fin g => g == 0
  | NaN => True
  | _ => False
  end.

(** * Properties *)

(** ** Comparisons of rationals as booleans *)

Lemma Qle_bool_false (a b : Q) : Qle_bool a b = false -> b < a.
Proof.
  intros H. apply Qnot_le_lt. intros Hle.
  apply Qle_bool_iff in Hle. congruence.
Qed.

Lemma Qle_bool_true (a b : Q) : Qle_bool a b = true -> a <= b.
Proof. apply Qle_bool_iff. Qed.

Lemma Qeq_bool_false (a b : Q) : Qeq_bool a b = false -> ~ a == b.
Proof. apply Qeq_bool_neq. Qed.

Lemma Qeq_bool_true (a b : Q) : Qeq_bool a b = true -> a == b.
Proof. apply Qeq_bool_iff. Qed.

(** Split on every rational comparison in the goal and keep the fact each
    branch stands for. *)
Ltac Qcases :=
  repeat match goal with
  | |- context [Qle_bool ?a ?b] =>
      let E := fresh "E" in
      destruct (Qle_bool a b) eqn:E;
      [apply Qle_bool_true in E | apply Qle_bool_false in E]
  | |- context [Qeq_bool ?a ?b] =>
      let E := fresh "E" in
      destruct (Qeq_bool a b) eqn:E;
      [apply Qeq_bool_true in E | apply Qeq_bool_false in E]
  end.

(** ** The clamp and the easing curve *)

(** On a finite number the clamp is the usual three-way case. *)
Lemma _clamp01_Fin (q : Q) :
  (q < 0 /\ _clamp01 (Fin q) = Fin 0) \/
  (1 < q /\ _clamp01 (Fin q) = Fin 1) \/
  (0 <= q <= 1 /\ _clamp01 (Fin q) = Fin q).
Proof.
  unfold _clamp01, gt, lt. Qcases; simpl; auto.
Qed.

(** The clamp of anything but [NaN] lies in the unit interval. *)
Lemma _clamp01_in_unit (v : number) : isNaN v = false -> in_unit (_clamp01 v).
Proof.
  destruct v as [q| | |]; simpl; intros H; try discriminate; try lra.
  destruct (_clamp01_Fin q) as [[_ ->]|[[_ ->]|[Hq ->]]]; simpl; lra.
Qed.

Lemma _clamp01_id (q : Q) : 0 <= q <= 1 -> _clamp01 (Fin q) = Fin q.
Proof.
  intros Hq.
  destruct (_clamp01_Fin q) as [[H _]|[[H _]|[_ ->]]]; [lra | lra | reflexivity].
Qed.


(** The cubic [x*x*(3 - 2*x)] maps the unit interval into itself. *)
Lemma smooth_poly_bounds (x : Q) :
  0 <= x <= 1 -> 0 <= x * x * (3 + - (2 * x)) <= 1.
Proof.
  intros [H0 H1]. split.
  - apply Qmult_le_0_compat; [apply Qmult_le_0_compat; assumption | lra].
  - assert (Hsq : 0 <= (1 - x) * (1 - x) * (1 + 2 * x)).
    { apply Qmult_le_0_compat; [apply Qmult_le_0_compat; lra | lra]. }
    assert (Heq : (1 - x) * (1 - x) * (1 + 2 * x)
                  == 1 - x * x * (3 + - (2 * x))) by ring.
    rewrite Heq in Hsq. lra.
Qed.

(** On a finite argument [_smooth01] is the cubic of the clamped argument. *)
Lemma _smooth01_Fin (x : Q) :
  exists c, _clamp01 (Fin x) = Fin c /\ 0 <= c <= 1 /\
            _smooth01 (Fin x) = Fin (c * c * (3 + - (2 * c))).
Proof.
  unfold _smooth01.
  destruct (_clamp01_Fin x) as [[_ E]|[[_ E]|[Hx E]]]; rewrite E;
    eexists; (split; [reflexivity | split; [lra | reflexivity]]).
Qed.

Lemma _smooth01_in_unit (x : Q) : in_unit (_smooth01 (Fin x)).
Proof.
  destruct (_smooth01_Fin x) as (c & _ & Hc & ->). simpl.
  apply smooth_poly_bounds, Hc.
Qed.


(** On a finite phase the reveal curve is [_smooth01] of a finite number. *)
Lemma _computeRevealPhase_Fin (p : Q) :
  (p < 0.5 /\ _computeRevealPhase (Fin p) = _smooth01 (Fin (p / 0.5))) \/
  (0.5 <= p /\ _computeRevealPhase (Fin p) = _smooth01 (Fin ((1 + - p) / 0.5))).
Proof.
  unfold _computeRevealPhase, lt. Qcases; simpl; auto.
Qed.

Lemma _computeRevealPhase_in_unit (p : Q) :
  in_unit (_computeRevealPhase (Fin p)).
Proof.
  destruct (_computeRevealPhase_Fin p) as [[_ ->]|[_ ->]];
    apply _smooth01_in_unit.
Qed.





(** ** The energy sampler *)

Lemma _clamp01_spec (n : number) : eqv (_clamp01 n) (clamp_unit_spec n).
Proof.
  destruct n as [q| | |]; simpl; try exact I; try reflexivity.
  destruct (_clamp01_Fin q) as [[Hq ->]|[[Hq ->]|[Hq ->]]]; simpl.
  - rewrite Q.max_l; [reflexivity |].
    rewrite Q.min_l; lra.
  - rewrite Q.min_r by lra. rewrite Q.max_r; lra.
  - rewrite Q.min_l by lra. rewrite Q.max_r; lra.
Qed.

(** [_safeEnergy] always returns, and touches nothing but the host's count
    of energy calls. *)
Lemma _safeEnergy_returns (s : State) :
  exists v,
    _safeEnergy s = Some (v, mkState (this s) (next_energy (host s))) /\
    in_unit v /\
    eqv v (sampled_energy_spec (getEnergy (this s) (energy_calls (host s)))).
Proof.
  unfold _safeEnergy, bind, call_getEnergy, ret.
  destruct (getEnergy (this s) (energy_calls (host s))) as [v|]; simpl.
  - destruct v as [| |b|n|str|xs|];
      try (exists (Fin 0); repeat split; simpl; lra).
    destruct (isNaN n) eqn:En.
    + exists (Fin 0). repeat split; simpl; lra.
    + exists (_clamp01 n). split; [reflexivity |].
      split; [apply _clamp01_in_unit, En | apply _clamp01_spec].
  - exists (Fin 0). repeat split; simpl; lra.
Qed.

(** C3. For every energy provider, whatever the call does, [_safeEnergy]
    returns a number in [[0,1]]: 0 when the provider throws or returns a
    non-number or [NaN], the returned number clamped into [[0,1]]
    otherwise.  No failure leaves the sampler. *)
Theorem safeEnergy_in_unit_never_fails (s : State) :
  exists v s',
    _safeEnergy s = Some (v, s') /\
    in_unit v /\
    eqv v (sampled_energy_spec (getEnergy (this s) (energy_calls (host s)))) /\
    this s' = this s.
Proof.
  destruct (_safeEnergy_returns s) as (v & Hrun & Hv & Hspec).
  exists v, (mkState (this s) (next_energy (host s))). auto.
Qed.

(** ** The timeline step *)

(** One unfolding of the [while] loop. *)
Lemma _update_while_eq (fuel : nat) (s : State) :
  _update_while fuel s =
  if (elapsed (this s) >? duration (this s))%js then
    match fuel with
    | O => None
    | S fuel' =>
        _update_while fuel'
          (mkState
             (set_index ((index (this s) + 1) mod length (lines (this s)))%nat
                (set_elapsed (elapsed (this s) - duration (this s))%js (this s)))
             (host s))
    end
  else Some (tt, s).
Proof. destruct fuel; reflexivity. Qed.

(** [_update] samples the energy once, adds [dt * effectiveSpeed] to
    [elapsed] and enters the loop. *)
Lemma _update_eq (fuel : nat) (dt : number) (s : State) :
  exists energy,
    in_unit energy /\
    eqv energy
        (sampled_energy_spec (getEnergy (this s) (energy_calls (host s)))) /\
    _update fuel dt s =
    _update_while fuel
      (mkState
         (set_elapsed
            (elapsed (this s) + dt * effectiveSpeed (this s) energy)%js
            (this s))
         (next_energy (host s))).
Proof.
  destruct (_safeEnergy_returns s) as (energy & Hrun & Hunit & Hspec).
  exists energy. repeat split; try assumption.
  unfold _update, bind. rewrite Hrun. reflexivity.
Qed.

(** C4, as the code has it.  On every call of [_update] the timeline is
    advanced by [dt] times [base * (0.6 + 0.8 * energy)], where [energy] is
    the sampled energy, in [[0,1]], and [base] is the stored [textSpeed]
    when that is a number other than 0 and [NaN], and 1.0 when it is 0,
    [NaN] or not stored. *)
Theorem effective_speed_falls_back_to_one (fuel : nat) (dt : number) (s : State) :
  exists energy base,
    in_unit energy /\
    eqv energy
        (sampled_energy_spec (getEnergy (this s) (energy_calls (host s)))) /\
    base = match controls (this s) !! "textSpeed" with
           | Some v => if truthy v then v else Fin 1.0
           | None => Fin 1.0
           end /\
    _update fuel dt s =
    _update_while fuel
      (mkState
         (set_elapsed
            (elapsed (this s)
             + dt * (base * (Fin 0.6 + Fin 0.8 * energy)))%js
            (this s))
         (next_energy (host s))).
Proof.
  destruct (_update_eq fuel dt s) as (energy & Hunit & Hspec & Hrun).
  exists energy. eexists. split; [exact Hunit |]. split; [exact Hspec |].
  split; [reflexivity |].
  rewrite Hrun. unfold effectiveSpeed, control_or, or_else.
  destruct (controls (this s) !! "textSpeed"); reflexivity.
Qed.

(** C4 fails as stated at a stored [textSpeed] of 0 (energy 0, [dt] = 1):
    the claimed speed is [0 * 0.6 = 0], which would leave [elapsed] at 0,
    and [_update] advances [elapsed] to 0.6. *)
Lemma effective_speed_at_zero_textSpeed :
  controls (sample_engine (Fin 0) (Fin 0)) !! "textSpeed" = Some (Fin 0) /\
  eqv (elapsed (sample_engine (Fin 0) (Fin 0))
       + Fin 1 * (Fin 0 * (Fin 0.6 + Fin 0.8 * Fin 0)))%js (Fin 0) /\
  exists s',
    _update 0 (Fin 1) (sample_state (Fin 0) (Fin 0)) = Some (tt, s') /\
    eqv (elapsed (this s')) (Fin 0.6) /\
    ~ eqv (elapsed (this s'))
          (elapsed (sample_engine (Fin 0) (Fin 0))
           + Fin 1 * (Fin 0 * (Fin 0.6 + Fin 0.8 * Fin 0)))%js.
Proof.
  split; [vm_compute; reflexivity |].
  split; [vm_compute; reflexivity |].
  eexists. split; [vm_compute; reflexivity |].
  split; vm_compute; congruence.
Qed.


Lemma wrap_index_lt (len k i : nat) :
  (0 < len)%nat -> (i < len)%nat -> (wrap_index len k i < len)%nat.
Proof.
  intros Hlen Hi. induction k as [|k IH]; simpl; [exact Hi |].
  apply Nat.mod_upper_bound. lia.
Qed.

(** With a positive finite duration and a finite [elapsed] the loop returns
    as soon as the fuel covers [elapsed / duration]; it has then subtracted
    the duration [k] times and advanced the index [k] times, and what is
    left of [elapsed] is at most the duration. *)
Lemma _update_while_returns (n : nat) :
  forall (s : State) (e d : Q),
    elapsed (this s) = Fin e ->
    duration (this s) = Fin d ->
    0 < d ->
    e <= inject_Z (Z.of_nat (S n)) * d ->
    exists (k : nat) (e' : Q),
      _update_while n s =
      Some (tt, mkState
                  (set_index
                     (wrap_index (length (lines (this s))) k (index (this s)))
                     (set_elapsed (Fin e') (this s)))
                  (host s)) /\
      e' == e - inject_Z (Z.of_nat k) * d /\
      e' <= d /\
      (0 <= e -> 0 <= e') /\
      (e <= d -> k = 0%nat) /\
      (d < e -> 0 < e').
Proof.
  induction n as [|n IH]; intros [[ls du ge cs gl ix el rn ts] w] e d;
    rewrite _update_while_eq; simpl; intros -> -> Hd He;
    unfold gt, lt; simpl.
  - destruct (Qle_bool e d) eqn:E; simpl.
    + apply Qle_bool_true in E.
      exists 0%nat, e. change (inject_Z (Z.of_nat 0)) with 0.
      repeat split; try lra; auto.
    + apply Qle_bool_false in E.
      change (inject_Z (Z.of_nat 1)) with 1 in He. lra.
  - destruct (Qle_bool e d) eqn:E; simpl.
    + apply Qle_bool_true in E.
      exists 0%nat, e. change (inject_Z (Z.of_nat 0)) with 0.
      repeat split; try lra; auto.
    + apply Qle_bool_false in E.
      edestruct (IH (mkState
                       (mkEngine ls (Fin d) ge cs gl ((ix + 1) mod length ls)%nat
                                 (Fin (e + - d)) rn ts) w)
                    (e + - d) d) as (k & e' & Hrun & He' & Hle & Hpos & Hzero & Hgt);
        [reflexivity | reflexivity | exact Hd | |].
      * replace (Z.of_nat (S (S n))) with (Z.of_nat (S n) + 1)%Z in He by lia.
        rewrite inject_Z_plus in He. change (inject_Z 1) with 1 in He.
        set (m := inject_Z (Z.of_nat (S n))) in *. nra.
      * exists (S k), e'.
        split.
        { unfold wrap_index. rewrite Nat.iter_succ_r. exact Hrun. }
        split.
        { rewrite He'.
          replace (Z.of_nat (S k)) with (Z.of_nat k + 1)%Z by lia.
          rewrite inject_Z_plus. change (inject_Z 1) with 1. ring. }
        split; [exact Hle |].
        split.
        { intros _. destruct (Qlt_le_dec d (e + - d)) as [H|H].
          - apply Qlt_le_weak, Hgt, H.
          - assert (Hk : k = 0%nat) by (apply Hzero, H). subst k.
            change (inject_Z (Z.of_nat 0)) with 0 in He'. lra. }
        split; [intros; lra |].
        intros _. destruct (Qlt_le_dec d (e + - d)) as [H|H].
        { apply Hgt, H. }
        { assert (Hk : k = 0%nat) by (apply Hzero, H). subst k.
          change (inject_Z (Z.of_nat 0)) with 0 in He'. lra. }
Qed.

(** Off the boundary the loop of the code is the loop of the specification:
    when [elapsed] is not a positive multiple of the duration, the strict
    comparison and the specification's [>=] take the same decisions all the
    way, and both loops end with the same time and index or both need more
    fuel. *)
Lemma _update_while_agrees_off_boundary (fuel : nat) :
  forall (s : State) (e d : Q),
    elapsed (this s) = Fin e ->
    duration (this s) = Fin d ->
    (forall k : nat, ~ e == inject_Z (Z.of_nat (S k)) * d) ->
    _update_while fuel s =
    option_map
      (fun r => (tt, mkState (set_index (snd r) (set_elapsed (Fin (fst r)) (this s)))
                             (host s)))
      (advance_spec_while fuel d (length (lines (this s))) e (index (this s))).
Proof.
  induction fuel as [|fuel IH]; intros [[ls du ge cs gl ix el rn ts] w] e d;
    rewrite _update_while_eq; simpl; intros -> -> Hoff;
    unfold gt, lt; simpl.
  - destruct (Qle_bool e d) eqn:E1; destruct (Qle_bool d e) eqn:E2; simpl;
      try reflexivity.
    + apply Qle_bool_true in E1, E2. exfalso. apply (Hoff 0%nat).
      change (inject_Z (Z.of_nat 1)) with 1. lra.
    + apply Qle_bool_false in E1, E2. lra.
  - destruct (Qle_bool e d) eqn:E1; destruct (Qle_bool d e) eqn:E2; simpl;
      try reflexivity.
    + apply Qle_bool_true in E1, E2. exfalso. apply (Hoff 0%nat).
      change (inject_Z (Z.of_nat 1)) with 1. lra.
    + rewrite (IH _ (e + - d) d); [reflexivity | reflexivity | reflexivity |].
      intros k Hk. apply (Hoff (S k)).
      replace (Z.of_nat (S (S k))) with (Z.of_nat (S k) + 1)%Z by lia.
      rewrite inject_Z_plus. change (inject_Z 1) with 1.
      set (m := inject_Z (Z.of_nat (S k))) in *. nra.
    + apply Qle_bool_false in E1, E2. lra.
Qed.

(** Enough fuel for a timeline that stands at [x] line durations. *)
Lemma fuel_covers (x d : Q) (n : nat) :
  0 < d ->
  (Z.to_nat (Qceiling (x / d)) <= n)%nat ->
  x <= inject_Z (Z.of_nat (S n)) * d.
Proof.
  intros Hd Hn.
  assert (Hc : x / d <= inject_Z (Z.of_nat (S n))).
  { eapply Qle_trans; [apply Qle_ceiling |].
    rewrite <- Zle_Qle. lia. }
  apply (Qmult_le_compat_r _ _ d) in Hc; [| lra].
  assert (Hx : x / d * d == x) by (field; lra).
  rewrite Hx in Hc. exact Hc.
Qed.

(** What [_update] does on a well-formed timeline: a finite non-negative
    [elapsed], a positive finite [duration], an index within the lines, a
    non-negative base speed and a non-negative [dt].  The call returns once
    the fuel covers the line durations to skip.  Afterwards the index is
    still within the lines and [0 <= elapsed <= duration], [elapsed] being
    the advanced time less [k] durations for the [k] lines passed. *)
Lemma _update_returns (s : State) (e d t b : Q) :
  elapsed (this s) = Fin e ->
  duration (this s) = Fin d ->
  control_or "textSpeed" (Fin 1.0) (this s) = Fin b ->
  0 <= e -> 0 < d -> 0 <= t -> 0 <= b ->
  (index (this s) < length (lines (this s)))%nat ->
  exists fuel0 : nat, forall fuel : nat, (fuel0 <= fuel)%nat ->
    exists (s' : State) (e' total : Q) (k : nat),
      _update fuel (Fin t) s = Some (tt, s') /\
      elapsed (this s') = Fin e' /\
      e <= total /\
      e' == total - inject_Z (Z.of_nat k) * d /\
      0 <= e' <= d /\
      index (this s') = wrap_index (length (lines (this s))) k (index (this s)) /\
      (index (this s') < length (lines (this s')))%nat /\
      lines (this s') = lines (this s) /\
      duration (this s') = duration (this s) /\
      controls (this s') = controls (this s).
Proof.
  intros Hel Hdu Hb He Hd Ht Hb0 Hix.
  exists (Z.to_nat (Qceiling ((e + t * (b * (0.6 + 0.8 * 1))) / d))).
  intros fuel Hfuel.
  destruct (_update_eq fuel (Fin t) s) as (energy & Hunit & _ & Hrun).
  destruct energy as [g| | |]; simpl in Hunit; try contradiction.
  unfold effectiveSpeed in Hrun. rewrite Hb, Hel in Hrun. simpl in Hrun.
  set (total := e + t * (b * (0.6 + 0.8 * g))) in *.
  assert (Hstep : 0 <= t * (b * (0.6 + 0.8 * g))).
  { apply Qmult_le_0_compat; [exact Ht |].
    apply Qmult_le_0_compat; [exact Hb0 | lra]. }
  assert (Hmax : total <= e + t * (b * (0.6 + 0.8 * 1))).
  { assert (Htb : 0 <= t * b) by (apply Qmult_le_0_compat; assumption).
    assert (Hg : 0 <= t * b * (1 - g)) by (apply Qmult_le_0_compat; lra).
    unfold total. nra. }
  destruct s as [[ls du ge cs gl ix el rn ts] w]. simpl in *. subst du el.
  edestruct (_update_while_returns fuel
               (mkState (mkEngine ls (Fin d) ge cs gl ix (Fin total) rn ts)
                        (next_energy w)) total d)
    as (k & e' & Hloop & He' & Hle & Hpos & Hzero & Hgt);
    [reflexivity | reflexivity | exact Hd | |].
  { eapply Qle_trans; [exact Hmax |]. apply fuel_covers; assumption. }
  exists (mkState (mkEngine ls (Fin d) ge cs gl (wrap_index (length ls) k ix)
                            (Fin e') rn ts) (next_energy w)), e', total, k.
  simpl. split; [rewrite Hrun; exact Hloop |].
  split; [reflexivity |].
  split; [unfold total; lra |].
  split; [exact He' |].
  split; [split; [apply Hpos; unfold total; lra | exact Hle] |].
  split; [reflexivity |].
  split; [apply wrap_index_lt; lia |].
  repeat split.
Qed.

(** C1 at the boundary.  Three lines, ten seconds a line, [textSpeed] 1 and
    a constant energy of 0.5, so that the effective speed is 1: a step of
    [dt = 10] from the start of line 0 puts [elapsed] exactly on the
    duration.  The loop then does not run, whatever the fuel: the engine
    stays on line 0 with [elapsed] equal to the duration, so
    [elapsed < duration] does not hold afterwards.  The loop of the
    specification, entered with the same time, moves to line 1 and leaves
    [elapsed] at 0. *)
Theorem update_landing_on_duration_keeps_line (fuel : nat) :
  exists s',
    _update fuel (Fin 10) (sample_state (Fin 1) (Fin 0.5)) = Some (tt, s') /\
    index (this s') = 0%nat /\
    duration (this s') = Fin 10 /\
    eqv (elapsed (this s')) (Fin 10) /\
    (elapsed (this s') <? duration (this s'))%js = false /\
    advance_spec_while 1 10 3 10 0 = Some (10 - 10, 1%nat).
Proof.
  eexists. split; [destruct fuel; vm_compute; reflexivity |].
  repeat split.
Qed.

(** ** The controls *)

(** A value that is not a number leaves the whole state as it is. *)
Lemma setControl_ignores_non_numbers (name : string) (v : value) (s : State) :
  typeof v <> TNumber -> setControl name v s = Some (tt, s).
Proof.
  destruct v; simpl; intros H; try reflexivity. congruence.
Qed.

(** A number is stored under the name, and only there. *)
Lemma setControl_stores_numbers (name other : string) (n : number) (s : State) :
  name <> "__proto__" ->
  exists s',
    setControl name (VNumber n) s = Some (tt, s') /\
    controls (this s') !! name = Some n /\
    (other <> name ->
     controls (this s') !! other = controls (this s) !! other).
Proof.
  intros Hname. eexists. split; [reflexivity |]. simpl.
  unfold assign_control. destruct (String.eqb_spec name "__proto__") as [E|E];
    [contradiction |].
  split; [apply lookup_insert_eq |].
  intros Hother. apply lookup_insert_ne. congruence.
Qed.

(** C5 at [NaN].  With [textSpeed] at 2, [setControl('textSpeed', NaN)] is
    not ignored: [NaN] has type number, passes the guard and replaces the
    stored 2. *)
Theorem setControl_stores_NaN :
  controls (this (sample_state (Fin 2) (Fin 0))) !! "textSpeed" = Some (Fin 2) /\
  exists s',
    setControl "textSpeed" (VNumber NaN) (sample_state (Fin 2) (Fin 0))
    = Some (tt, s') /\
    controls (this s') !! "textSpeed" = Some NaN /\
    control_or "textSpeed" (Fin 1.0) (this s') = Fin 1.0.
Proof.
  split; [vm_compute; reflexivity |].
  eexists. split; [reflexivity |].
  split; vm_compute; reflexivity.
Qed.

(** ** Starting and stopping *)

(** C7. [start()] twice in a row leaves the state and the host (one frame
    request at most) exactly as [start()] once does, and so does [stop()]
    twice in a row; on an engine that is running, [start()] changes
    nothing. *)
Theorem start_stop_idempotent (s : State) :
  (start ;;; start) s = start s /\
  (stop ;;; stop) s = stop s /\
  start (mkState (set_running true (this s)) (host s))
  = Some (tt, mkState (set_running true (this s)) (host s)).
Proof.
  destruct s as [[ls du ge cs gl ix el rn ts] w].
  repeat split; destruct rn; reflexivity.
Qed.

(** ** Replacing the lines *)

(** C8. [setLines] given anything but a non-empty array returns with the
    state as it was: lines, index and elapsed are retained.  Given a
    non-empty array it makes the array's elements the lines and resets the
    timeline to index 0 and elapsed 0, leaving every other field alone. *)
Theorem setLines_guarded (arg : value) (s : State) :
  exists s',
    setLines arg s = Some (tt, s') /\
    match arg with
    | VArray (x :: xs) =>
        lines (this s') = x :: xs /\
        index (this s') = 0%nat /\
        elapsed (this s') = Fin 0 /\
        duration (this s') = duration (this s) /\
        controls (this s') = controls (this s) /\
        running (this s') = running (this s) /\
        _lastTs (this s') = _lastTs (this s) /\
        host s' = host s
    | _ => s' = s
    end.
Proof.
  destruct arg as [| |b|n|str|[|x xs]|]; eexists; (split; [reflexivity |]);
    try reflexivity.
  repeat split.
Qed.

(** ** The glitch transform *)

(** The separators are the ten characters of the string in the source:
    space, no-break space, [/], [\], [|], [:], [-], the em dash, the middle
    dot and the comma. *)
Lemma is_separator_spec (ch : codeunit) :
  is_separator ch = true <->
  ch ∈ [32; 160; 47; 92; 124; 58; 45; 8212; 183; 44]%N.
Proof.
  unfold is_separator, separators. rewrite existsb_exists. split.
  - intros (x & Hin & Heq). apply N.eqb_eq in Heq. subst x.
    apply list_elem_of_In, Hin.
  - intros Hin. exists ch. split; [apply list_elem_of_In, Hin | apply N.eqb_refl].
Qed.

(** A draw in [[0,1)] scaled by the palette's length and floored indexes a
    glyph of a non-empty palette. *)
Lemma char_at_text_in_range (glyphs : jsstring) (r : Q) :
  0 <= r < 1 ->
  glyphs <> [] ->
  exists c, char_at_text glyphs (floor (Fin r * length_number glyphs)%js) = [c].
Proof.
  intros [Hr0 Hr1] Hne.
  cbv beta iota delta [length_number floor mul char_at_text].
  set (len := Z.of_nat (length glyphs)).
  assert (Hlen : (0 < len)%Z) by (subst len; destruct glyphs; simpl; [congruence | lia]).
  set (z := Qfloor (r * inject_Z len)).
  rewrite Qfloor_Z.
  assert (Hz0 : (0 <= z)%Z).
  { change 0%Z with (Qfloor 0). apply Qfloor_resp_le.
    apply Qmult_le_0_compat; [exact Hr0 |].
    change 0 with (inject_Z 0). rewrite <- Zle_Qle. lia. }
  assert (Hz1 : (z < len)%Z).
  { rewrite Zlt_Qlt. eapply Qle_lt_trans; [apply Qfloor_le |].
    assert (Hpos : 0 < inject_Z len).
    { change 0 with (inject_Z 0). rewrite <- Zlt_Qlt. exact Hlen. }
    nra. }
  rewrite Qeq_bool_refl. simpl.
  destruct (Z.leb_spec 0 z) as [_|H]; [| lia].
  destruct (glyphs !! Z.to_nat z) as [c|] eqn:E; [exists c; reflexivity |].
  apply lookup_ge_None in E. subst len. lia.
Qed.

(** One pass through the body of the loop of [_applyGlitch]. *)
Lemma _applyGlitch_for_cons (Math_sin : number -> number)
    (random_stream : nat -> Q) (gi t : number) (glyphs : jsstring)
    (ch : codeunit) (rest : jsstring) (i : nat) (out : jsstring) (s : State) :
  _applyGlitch_for Math_sin random_stream gi t glyphs (ch :: rest) i out s =
  if is_separator ch
  then _applyGlitch_for Math_sin random_stream gi t glyphs rest (S i)
                        (out ++ [ch]) s
  else
    if (Fin (random_stream (random_calls (host s)))
        <? gi * ((Math_sin (t * Fin 1.7
                            + Fin (inject_Z (Z.of_nat i)) * Fin 13.37)
                  + Fin 1) * Fin 0.5))%js
    then
      _applyGlitch_for Math_sin random_stream gi t glyphs rest (S i)
        (out ++ char_at_text glyphs
                  (floor (Fin (random_stream (S (random_calls (host s))))
                          * length_number glyphs)%js))
        (mkState (this s) (next_random (next_random (host s))))
    else
      _applyGlitch_for Math_sin random_stream gi t glyphs rest (S i)
        (out ++ [ch])
        (mkState (this s) (next_random (host s))).
Proof.
  cbn [_applyGlitch_for]. destruct (is_separator ch); [reflexivity |].
  unfold bind at 1. unfold Math_random at 1.
  match goal with |- context [if ?c then _ else _] => destruct c end;
    reflexivity.
Qed.

(** The loop of [_applyGlitch] always returns; it extends [out], leaves the
    engine alone and touches the host only by drawing random numbers.  When
    the draws lie in [[0,1)], as those of [Math.random] do, and the palette
    is not empty, it appends exactly one character for each character
    visited, and each separator is appended as it is. *)
Lemma _applyGlitch_for_spec (Math_sin : number -> number)
    (random_stream : nat -> Q) (gi t : number) (glyphs : jsstring)
    (rest : jsstring) :
  forall (i : nat) (out : jsstring) (s : State),
  exists (out' : jsstring) (s' : State),
    _applyGlitch_for Math_sin random_stream gi t glyphs rest i out s
    = Some (out ++ out', s') /\
    this s' = this s /\
    only_random_drawn (host s) (host s') /\
    ((forall n, 0 <= random_stream n < 1) ->
     glyphs <> [] ->
     length out' = length rest /\
     forall (j : nat) (ch : codeunit),
       rest !! j = Some ch -> is_separator ch = true -> out' !! j = Some ch).
Proof.
  induction rest as [|ch rest IH]; intros i out s.
  - exists [], s. simpl. rewrite app_nil_r.
    repeat split; intros; try reflexivity. discriminate.
  - rewrite _applyGlitch_for_cons. destruct (is_separator ch) eqn:Esep.
    + destruct (IH (S i) (out ++ [ch]) s)
        as (out' & s' & Hrun & Hthis & Hhost & Hsep).
      exists (ch :: out'), s'. rewrite Hrun, <- app_assoc.
      split; [reflexivity |]. split; [exact Hthis |]. split; [exact Hhost |].
      intros Hrange Hne. destruct (Hsep Hrange Hne) as [Hlen Hkeep].
      split; [simpl; f_equal; exact Hlen |].
      intros [|j] c' Hj Hc'; simpl in *; [congruence |].
      apply Hkeep; assumption.
    + match goal with |- context [if ?c then _ else _] => destruct c end.
      * set (g := char_at_text glyphs _).
        destruct (IH (S i) (out ++ g)
                     (mkState (this s) (next_random (next_random (host s)))))
          as (out' & s' & Hrun & Hthis & Hhost & Hsep).
        exists (g ++ out'), s'. rewrite Hrun, <- app_assoc.
        split; [reflexivity |]. split; [exact Hthis |].
        split; [destruct Hhost as (? & ? & ?); repeat split; assumption |].
        intros Hrange Hne.
        destruct (char_at_text_in_range glyphs
                    (random_stream (S (random_calls (host s))))
                    (Hrange _) Hne) as (c & Hc).
        subst g. rewrite Hc.
        destruct (Hsep Hrange Hne) as [Hlen Hkeep].
        split; [simpl; f_equal; exact Hlen |].
        intros [|j] c' Hj Hc'; simpl in *; [congruence |].
        apply Hkeep; assumption.
      * destruct (IH (S i) (out ++ [ch])
                     (mkState (this s) (next_random (host s))))
          as (out' & s' & Hrun & Hthis & Hhost & Hsep).
        exists (ch :: out'), s'. rewrite Hrun, <- app_assoc.
        split; [reflexivity |]. split; [exact Hthis |].
        split; [destruct Hhost as (? & ? & ?); repeat split; assumption |].
        intros Hrange Hne. destruct (Hsep Hrange Hne) as [Hlen Hkeep].
        split; [simpl; f_equal; exact Hlen |].
        intros [|j] c' Hj Hc'; simpl in *; [congruence |].
        apply Hkeep; assumption.
Qed.

(** [_applyGlitch] is its loop run from position 0 with an empty output. *)
Lemma _applyGlitch_eq (Math_sin : number -> number) (random_stream : nat -> Q)
    (visibleText : jsstring) (phase energy : number) (s : State) :
  exists gi : number,
    gi = glitchIntensity (this s) phase energy /\
    _applyGlitch Math_sin random_stream visibleText phase energy s =
    _applyGlitch_for Math_sin random_stream gi (elapsed (this s))
                     (glitchGlyphs (this s)) visibleText 0 [] s.
Proof. eexists. split; reflexivity. Qed.

(** C6. Whatever the text, the phase, the energy, the controls and the
    random draws (taken in [[0,1)], the range of [Math.random]), on an
    engine with a non-empty glyph palette [_applyGlitch] returns a text of
    the same length in which every separator of the input (space, no-break
    space, [/], [\], [|], [:], [-], em dash, middle dot, comma) stands
    unchanged at its position. *)
Theorem glitch_keeps_separators (Math_sin : number -> number)
    (random_stream : nat -> Q) (visibleText : jsstring)
    (phase energy : number) (s : State) :
  (forall n, 0 <= random_stream n < 1) ->
  glitchGlyphs (this s) <> [] ->
  exists (out : jsstring) (s' : State),
    _applyGlitch Math_sin random_stream visibleText phase energy s
    = Some (out, s') /\
    length out = length visibleText /\
    forall (i : nat) (ch : codeunit),
      visibleText !! i = Some ch ->
      ch ∈ [32; 160; 47; 92; 124; 58; 45; 8212; 183; 44]%N ->
      out !! i = Some ch.
Proof.
  intros Hrange Hne.
  destruct (_applyGlitch_eq Math_sin random_stream visibleText phase energy s)
    as (gi & _ & ->).
  destruct (_applyGlitch_for_spec Math_sin random_stream gi (elapsed (this s))
              (glitchGlyphs (this s)) visibleText 0 [] s)
    as (out & s' & Hrun & _ & _ & Hsep).
  destruct (Hsep Hrange Hne) as [Hlen Hkeep].
  exists out, s'. split; [exact Hrun |]. split; [exact Hlen |].
  intros i ch Hi Hch. apply Hkeep; [exact Hi |].
  apply is_separator_spec, Hch.
Qed.

(** The theorem on the text [A-1 /B], with every draw 0 (so that every
    other character is replaced by the first glyph) and the sine at 1. *)
Lemma glitch_keeps_separators_witness :
  exists (out : jsstring) (s' : State),
    _applyGlitch (fun _ => Fin 1) (fun _ => 0) [65; 45; 49; 32; 47; 66]%N
                 (Fin 0.5) (Fin 1) (sample_state (Fin 1) (Fin 1))
    = Some (out, s') /\
    length out = 6%nat /\
    forall (i : nat) (ch : codeunit),
      [65; 45; 49; 32; 47; 66]%N !! i = Some ch ->
      ch ∈ [32; 160; 47; 92; 124; 58; 45; 8212; 183; 44]%N ->
      out !! i = Some ch.
Proof.
  apply (glitch_keeps_separators (fun _ => Fin 1) (fun _ => 0)
           [65; 45; 49; 32; 47; 66]%N (Fin 0.5) (Fin 1)
           (sample_state (Fin 1) (Fin 1))).
  - intros n. split; vm_compute; congruence.
  - vm_compute. congruence.
Defined.

(** ** Reading the current frame *)

(** C9. [getCurrentRenderedText()] always returns, with the engine exactly
    as it was: index, elapsed, running, lines, duration and controls are
    unchanged, and so are the output element and the frame queue.  The text
    it returns is the glitch transform, at the sampled energy, of the prefix
    of the current line that the reveal curve uncovers at the current
    phase. *)
Theorem getCurrentRenderedText_pure_read (Math_sin : number -> number)
    (random_stream : nat -> Q) (s : State) :
  exists (text : jsstring) (s' : State) (energy : number),
    getCurrentRenderedText Math_sin random_stream s = Some (text, s') /\
    this s' = this s /\
    textContent (host s') = textContent (host s) /\
    frame_requests (host s') = frame_requests (host s) /\
    in_unit energy /\
    let line := default [] (lines (this s) !! index (this s)) in
    let phase := (elapsed (this s) / duration (this s))%js in
    _applyGlitch Math_sin random_stream
      (slice_to line (floor (length_number line * _computeRevealPhase phase)%js))
      phase energy (mkState (this s) (next_energy (host s)))
    = Some (text, s').
Proof.
  destruct (_safeEnergy_returns s) as (energy & Hen & Hunit & _).
  set (line := default [] (lines (this s) !! index (this s))).
  set (phase := (elapsed (this s) / duration (this s))%js).
  set (prefix := slice_to line
                   (floor (length_number line * _computeRevealPhase phase)%js)).
  set (s1 := mkState (this s) (next_energy (host s))).
  destruct (_applyGlitch_eq Math_sin random_stream prefix phase energy s1)
    as (gi & _ & Hgl).
  destruct (_applyGlitch_for_spec Math_sin random_stream gi (elapsed (this s1))
              (glitchGlyphs (this s1)) prefix 0 [] s1)
    as (text & s' & Hrun & Hthis & (Htc & _ & Hfr) & _).
  exists text, s', energy.
  assert (Hcall : getCurrentRenderedText Math_sin random_stream s
                  = _applyGlitch Math_sin random_stream prefix phase energy s1).
  { unfold getCurrentRenderedText, bind, read. simpl. rewrite Hen. reflexivity. }
  rewrite Hcall. split; [rewrite Hgl; exact Hrun |].
  split; [exact Hthis |]. split; [exact Htc |]. split; [exact Hfr |].
  split; [exact Hunit |]. cbv zeta. fold line phase prefix s1.
  rewrite Hgl. exact Hrun.
Qed.

(** ** The lines are never empty *)

Lemma nonempty_array_nonempty (v : value) (xs : list jsstring) :
  nonempty_array v = Some xs -> xs <> [].
Proof.
  destruct v as [| |b|n|str|[|y ys]|]; simpl; intros H; try discriminate.
  injection H as <-. discriminate.
Qed.

(** The constructor takes the lines of a non-empty array and the built-in
    ones otherwise; either way they are not empty and the timeline starts at
    line 0. *)
Lemma constructor_lines (options : Options.t) (e : Engine) :
  constructor options = Returns e ->
  lines e = match Options.lines options with
            | VArray (x :: xs) => x :: xs
            | _ => default_lines
            end /\
  lines e <> [] /\
  index e = 0%nat.
Proof.
  unfold constructor. destruct (negb (Options.element options)); [discriminate |].
  intros H. injection H as <-. simpl.
  destruct (Options.lines options) as [| |b|n|str|[|y ys]|]; simpl;
    repeat split; discriminate.
Qed.

(** The loop of [_update] never touches the lines, and keeps the index
    within them. *)
Lemma _update_while_lines (fuel : nat) :
  forall (s s' : State),
    _update_while fuel s = Some (tt, s') ->
    lines (this s') = lines (this s) /\
    (lines (this s) <> [] ->
     (index (this s) < length (lines (this s)))%nat ->
     (index (this s') < length (lines (this s')))%nat).
Proof.
  induction fuel as [|fuel IH]; intros s s'; rewrite _update_while_eq;
    destruct (elapsed (this s) >? duration (this s))%js;
    intros H; try discriminate;
    try (injection H as <-; split; [reflexivity | intros _ Hi; exact Hi]).
  apply IH in H. destruct H as [Hlines Hindex]. simpl in *.
  split; [exact Hlines |].
  intros Hne _. apply Hindex; [exact Hne |].
  apply Nat.mod_upper_bound. destruct (lines (this s)); simpl; [congruence | lia].
Qed.

Lemma _update_lines (fuel : nat) (dt : number) (s s' : State) :
  _update fuel dt s = Some (tt, s') ->
  lines (this s') = lines (this s) /\
  (lines (this s) <> [] ->
   (index (this s) < length (lines (this s)))%nat ->
   (index (this s') < length (lines (this s')))%nat).
Proof.
  destruct (_update_eq fuel dt s) as (energy & _ & _ & ->).
  intros H. apply _update_while_lines in H. exact H.
Qed.

(** [_render] always returns and leaves the engine as it is. *)
Lemma _render_returns (Math_sin : number -> number) (random_stream : nat -> Q)
    (s : State) :
  exists s', _render Math_sin random_stream s = Some (tt, s') /\ this s' = this s.
Proof.
  unfold _render, bind at 1, read at 1.
  destruct (current_line (this s)) as [|c line'] eqn:Eline.
  - eexists. split; reflexivity.
  - unfold bind, read.
    destruct (_safeEnergy_returns s) as (energy & -> & _ & _).
    match goal with
    | |- context [_applyGlitch ?ms ?rs ?txt ?ph ?en ?st] =>
        destruct (_applyGlitch_eq ms rs txt ph en st) as (gi & _ & Hgl);
        destruct (_applyGlitch_for_spec ms rs gi (elapsed (this st))
                    (glitchGlyphs (this st)) txt 0 [] st)
          as (out & s2 & Hrun & Hthis & _ & _);
        rewrite Hgl, Hrun
    end.
    eexists. split; [reflexivity |]. exact Hthis.
Qed.

(** A tick, unfolded: nothing when the engine is stopped; otherwise the
    time since the previous frame (none on the first), at least a
    millisecond, goes to [_update], then [_render] runs and the next frame is
    requested. *)
Lemma _loop_eq (Math_sin : number -> number) (random_stream : nat -> Q)
    (fuel : nat) (ts : number) (s : State) :
  _loop Math_sin random_stream fuel ts s =
  if running (this s) then
    let last := match _lastTs (this s) with
                | Some l => l
                | None => ts
                end in
    let dt := max (Fin 0.001) ((ts - last) / Fin 1000)%js in
    (_update fuel dt ;;; _render Math_sin random_stream ;;;
     requestAnimationFrame)
      (mkState (set_lastTs (Some ts) (this s)) (host s))
  else Some (tt, s).
Proof.
  destruct s as [[ls du ge cs gl ix el rn [l|]] w]; destruct rn; reflexivity.
Qed.

(** A tick that returns has left the lines alone and the index within
    them. *)
Lemma _loop_lines (Math_sin : number -> number) (random_stream : nat -> Q)
    (fuel : nat) (ts : number) (s s' : State) :
  _loop Math_sin random_stream fuel ts s = Some (tt, s') ->
  lines (this s') = lines (this s) /\
  (lines (this s) <> [] ->
   (index (this s) < length (lines (this s)))%nat ->
   (index (this s') < length (lines (this s')))%nat).
Proof.
  rewrite _loop_eq.
  destruct (running (this s));
    [| intros H; injection H as <-; split; [reflexivity | intros _ Hi; exact Hi]].
  cbv zeta. set (dt := max _ _).
  set (s1 := mkState (set_lastTs (Some ts) (this s)) (host s)).
  unfold bind at 1.
  destruct (_update fuel dt s1) as [[[] s2]|] eqn:Eup; [| discriminate].
  apply _update_lines in Eup. destruct Eup as [Hl2 Hi2].
  unfold bind at 1.
  destruct (_render_returns Math_sin random_stream s2) as (s3 & -> & Hthis3).
  unfold requestAnimationFrame, effect. intros H. injection H as <-.
  cbn [this]. rewrite Hthis3. split; [exact Hl2 |]. exact Hi2.
Qed.

(** [getCurrentRenderedText] returns, with the engine as it was, the glitch
    of the uncovered prefix of the current line. *)
Lemma getCurrentRenderedText_returns (Math_sin : number -> number)
    (random_stream : nat -> Q) (s : State) :
  exists (text : jsstring) (s' : State) (energy : number),
    getCurrentRenderedText Math_sin random_stream s = Some (text, s') /\
    this s' = this s /\
    textContent (host s') = textContent (host s) /\
    frame_requests (host s') = frame_requests (host s) /\
    in_unit energy /\
    let line := default [] (lines (this s) !! index (this s)) in
    let phase := (elapsed (this s) / duration (this s))%js in
    _applyGlitch Math_sin random_stream
      (slice_to line (floor (length_number line * _computeRevealPhase phase)%js))
      phase energy (mkState (this s) (next_energy (host s)))
    = Some (text, s').
Proof.
  destruct (_safeEnergy_returns s) as (energy & Hen & Hunit & _).
  set (line := default [] (lines (this s) !! index (this s))).
  set (phase := (elapsed (this s) / duration (this s))%js).
  set (prefix := slice_to line
                   (floor (length_number line * _computeRevealPhase phase)%js)).
  set (s1 := mkState (this s) (next_energy (host s))).
  destruct (_applyGlitch_eq Math_sin random_stream prefix phase energy s1)
    as (gi & _ & Hgl).
  destruct (_applyGlitch_for_spec Math_sin random_stream gi (elapsed (this s1))
              (glitchGlyphs (this s1)) prefix 0 [] s1)
    as (text & s' & Hrun & Hthis & (Htc & _ & Hfr) & _).
  exists text, s', energy.
  assert (Hcall : getCurrentRenderedText Math_sin random_stream s
                  = _applyGlitch Math_sin random_stream prefix phase energy s1).
  { unfold getCurrentRenderedText, bind, read. simpl. rewrite Hen. reflexivity. }
  rewrite Hcall. split; [rewrite Hgl; exact Hrun |].
  split; [exact Hthis |]. split; [exact Htc |]. split; [exact Hfr |].
  split; [exact Hunit |]. cbv zeta. fold line phase prefix s1.
  rewrite Hgl. exact Hrun.
Qed.

(** Every call that returns keeps the lines non-empty and the index within
    them. *)
Lemma perform_keeps_lines (Math_sin : number -> number)
    (random_stream : nat -> Q) (c : call) (s s' : State) :
  perform Math_sin random_stream c s = Some (tt, s') ->
  lines (this s) <> [] ->
  (index (this s) < length (lines (this s)))%nat ->
  lines (this s') <> [] /\
  (index (this s') < length (lines (this s')))%nat.
Proof.
  destruct c as [| | |arg|name v| |fuel ts]; simpl; intros H Hne Hi.
  - unfold start, bind, read in H. simpl in H.
    destruct (running (this s)); injection H as <-; simpl; auto.
  - injection H as <-. simpl. auto.
  - injection H as <-. simpl. split; [exact Hne |].
    destruct (lines (this s)); simpl; [congruence | lia].
  - unfold setLines in H. destruct (nonempty_array arg) as [xs|] eqn:E.
    + injection H as <-. simpl. apply nonempty_array_nonempty in E.
      split; [exact E |]. destruct xs; simpl; [congruence | lia].
    + injection H as <-. auto.
  - destruct v; injection H as <-; simpl; auto.
  - destruct (getCurrentRenderedText_returns Math_sin random_stream s)
      as (text & s1 & energy & Hrun & Hthis & _).
    unfold bind in H. rewrite Hrun in H. injection H as <-.
    rewrite Hthis. auto.
  - apply _loop_lines in H. destruct H as [Hl Hix].
    split; [rewrite Hl; exact Hne | apply Hix; assumption].
Qed.

(** C10. After a construction that succeeds and after every call that
    returns ([start], [stop], [reset], [setLines], [setControl],
    [getCurrentRenderedText], a tick) the lines are a non-empty array, those
    the constructor got when it was given a non-empty array and the built-in
    ones otherwise; the index stays below their number, so the lookup
    [lines[index]] finds a line. *)
Theorem lines_nonempty (Math_sin : number -> number) (random_stream : nat -> Q)
    (options : Options.t) (e : Engine) (s : State) :
  constructor options = Returns e ->
  reachable Math_sin random_stream s ->
  lines e = match Options.lines options with
            | VArray (x :: xs) => x :: xs
            | _ => default_lines
            end /\
  lines (this s) <> [] /\
  (index (this s) < length (lines (this s)))%nat /\
  is_Some (lines (this s) !! index (this s)).
Proof.
  intros Hnew Hreach. split; [apply constructor_lines, Hnew |].
  assert (H : lines (this s) <> [] /\
              (index (this s) < length (lines (this s)))%nat).
  { clear Hnew. induction Hreach as [options' e' w Hc | s c s' _ IH Hcall].
    - apply constructor_lines in Hc. destruct Hc as (_ & Hne & Hix). simpl.
      split; [exact Hne |]. rewrite Hix.
      destruct (lines e'); simpl; [congruence | lia].
    - destruct IH as [Hne Hix].
      eapply perform_keeps_lines; eassumption. }
  destruct H as [Hne Hix]. repeat split; try assumption.
  apply lookup_lt_is_Some_2, Hix.
Qed.

(** Calls performed one after the other from a reachable state lead to a
    reachable state. *)
Lemma reachable_perform_all (Math_sin : number -> number)
    (random_stream : nat -> Q) (cs : list call) :
  forall s s',
    reachable Math_sin random_stream s ->
    perform_all Math_sin random_stream cs s = Some s' ->
    reachable Math_sin random_stream s'.
Proof.
  induction cs as [|c cs IH]; simpl; intros s s' Hs H.
  - injection H as <-. exact Hs.
  - destruct (perform Math_sin random_stream c s) as [[[] s1]|] eqn:E;
      [| discriminate].
    eapply IH; [| exact H]. eapply reachable_call; eassumption.
Defined.

(** The theorem on the sample life. *)
Lemma lines_nonempty_witness :
  lines (this sample_new) = default_lines /\
  lines (this sample_reached) <> [] /\
  (index (this sample_reached) < length (lines (this sample_reached)))%nat /\
  is_Some (lines (this sample_reached) !! index (this sample_reached)).
Proof.
  apply (lines_nonempty (fun _ => Fin 1) (fun _ => 0.5) sample_options
           (this sample_new) sample_reached).
  - reflexivity.
  - apply (reachable_perform_all (fun _ => Fin 1) (fun _ => 0.5)
             sample_history sample_new).
    + apply (reachable_new _ _ sample_options (this sample_new) fresh_world).
      reflexivity.
    + vm_compute. reflexivity.
Defined.

(** The time step of a tick is finite and at least a millisecond when the
    timestamps are finite. *)
Lemma tick_dt_finite (ts last : Q) :
  exists t : Q,
    max (Fin 0.001) ((Fin ts - Fin last) / Fin 1000)%js = Fin t /\ 0.001 <= t.
Proof.
  cbv beta iota delta [sub add neg div].
  change (Qeq_bool 1000 0) with false. cbv iota.
  unfold max, lt. destruct (Qle_bool ((ts + - last) / 1000) 0.001) eqn:E.
  - exists 0.001. split; [reflexivity | lra].
  - apply Qle_bool_false in E. eexists. split; [reflexivity | lra].
Qed.

(** A tick on a well-formed timeline returns once the fuel covers the lines
    to skip, and leaves the timeline well formed: the index within the lines
    and [0 <= elapsed <= duration]. *)
Lemma _loop_returns (Math_sin : number -> number) (random_stream : nat -> Q)
    (s : State) (ts e d b : Q) :
  elapsed (this s) = Fin e ->
  duration (this s) = Fin d ->
  control_or "textSpeed" (Fin 1.0) (this s) = Fin b ->
  (forall l, _lastTs (this s) = Some l -> finite l) ->
  0 <= e -> e <= d -> 0 < d -> 0 <= b ->
  (index (this s) < length (lines (this s)))%nat ->
  exists fuel0 : nat, forall fuel : nat, (fuel0 <= fuel)%nat ->
    exists (s' : State) (e' : Q),
      _loop Math_sin random_stream fuel (Fin ts) s = Some (tt, s') /\
      elapsed (this s') = Fin e' /\
      0 <= e' <= d /\
      (index (this s') < length (lines (this s')))%nat.
Proof.
  intros Hel Hdu Hb Hlast He Hed Hd Hb0 Hix.
  destruct (running (this s)) eqn:Erun.
  - set (last := match _lastTs (this s) with Some l => l | None => Fin ts end).
    assert (Hdt : exists t, max (Fin 0.001) ((Fin ts - last) / Fin 1000)%js
                            = Fin t /\ 0.001 <= t).
    { subst last. destruct (_lastTs (this s)) as [l|] eqn:El.
      - specialize (Hlast l eq_refl). destruct l as [lq| | |]; try contradiction.
        apply tick_dt_finite.
      - apply tick_dt_finite. }
    destruct Hdt as (t & Hdt & Ht).
    destruct (_update_returns
                (mkState (set_lastTs (Some (Fin ts)) (this s)) (host s))
                e d t b) as (fuel0 & Hfuel); try assumption; [lra |].
    exists fuel0. intros fuel Hle.
    destruct (Hfuel fuel Hle)
      as (s2 & e' & total & k & Hup & Hel' & _ & _ & Hbounds & _ & Hix' & _).
    destruct (_render_returns Math_sin random_stream s2) as (s3 & Hren & Hthis).
    exists (mkState (this s3) (queue_frame (host s3))), e'.
    rewrite _loop_eq, Erun. cbv zeta. fold last. rewrite Hdt.
    unfold bind. rewrite Hup, Hren.
    split; [reflexivity |]. cbn [this]. rewrite Hthis.
    split; [exact Hel' |].
    split; [exact Hbounds | exact Hix'].
  - exists 0%nat. intros fuel _. exists s, e.
    rewrite _loop_eq, Erun. split; [reflexivity |]. split; [exact Hel |].
    split; [split; assumption | exact Hix].

Qed.

(** ** The scenarios of the specification, evaluated *)

(** The sampler on a provider that throws, that returns a string, [NaN],
    a number above 1, a negative number, an infinity, a number within the
    unit interval. *)
Example _safeEnergy_throws :
  option_map fst (_safeEnergy (sample_with_provider (fun _ => Throws)))
  = Some (Fin 0).
Proof. reflexivity. Qed.

Example _safeEnergy_string :
  option_map fst
    (_safeEnergy (sample_with_provider (fun _ => Returns (VString [49]%N))))
  = Some (Fin 0).
Proof. reflexivity. Qed.

Example _safeEnergy_NaN :
  option_map fst
    (_safeEnergy (sample_with_provider (fun _ => Returns (VNumber NaN))))
  = Some (Fin 0).
Proof. reflexivity. Qed.

Example _safeEnergy_above :
  option_map fst
    (_safeEnergy (sample_with_provider (fun _ => Returns (VNumber (Fin 2.5)))))
  = Some (Fin 1).
Proof. reflexivity. Qed.

Example _safeEnergy_below :
  option_map fst
    (_safeEnergy (sample_with_provider (fun _ => Returns (VNumber (Fin (-1))))))
  = Some (Fin 0).
Proof. reflexivity. Qed.

Example _safeEnergy_infinite :
  option_map fst
    (_safeEnergy (sample_with_provider (fun _ => Returns (VNumber PInf))))
  = Some (Fin 1).
Proof. reflexivity. Qed.

Example _safeEnergy_within :
  option_map fst
    (_safeEnergy (sample_with_provider (fun _ => Returns (VNumber (Fin 0.25)))))
  = Some (Fin 0.25).
Proof. reflexivity. Qed.

(** Three lines, ten seconds a line, [textSpeed] 1, [textGlitch] 0, energy
    0: at [elapsed = 5] the whole line shows and nothing is substituted,
    even when every draw is 0. *)
Example full_line_at_half_time :
  option_map fst
    (getCurrentRenderedText (fun _ => Fin 1) (fun _ => 0)
       (mkState (set_elapsed (Fin 5) (sample_engine (Fin 1) (Fin 0)))
                fresh_world))
  = Some [65; 45; 49]%N.
Proof. vm_compute. reflexivity. Qed.

(** With [textGlitch] raised to 1 the same draws replace the letter and the
    digit by the first glyph and keep the hyphen. *)
Example glitched_line_at_half_time :
  option_map fst
    (getCurrentRenderedText (fun _ => Fin 1) (fun _ => 0)
       (mkState
          (set_controls (<["textGlitch" := Fin 1]> ∅)
             (set_elapsed (Fin 5) (sample_engine (Fin 1) (Fin 0))))
          fresh_world))
  = Some [48; 45; 48]%N.
Proof. vm_compute. reflexivity. Qed.

(** A step long enough to pass two lines: from line 0 at time 0, 25 seconds
    at speed 1 end on line 2 at time 5. *)
Example update_passes_two_lines :
  exists s',
    _update 2 (Fin 25) (sample_state (Fin 1) (Fin 0.5)) = Some (tt, s') /\
    index (this s') = 2%nat /\
    eqv (elapsed (this s')) (Fin 5).
Proof. eexists. split; [vm_compute; reflexivity |]. split; reflexivity. Qed.

(** The boundary is met through the public interface as well: after
    [start()], a first frame at 0 ms (which advances by the minimal
    millisecond) and a second one at 9999 ms, [elapsed] is the duration and
    the engine is still on line 0. *)
Example ticks_landing_on_duration :
  exists s',
    perform_all (fun _ => Fin 1) (fun _ => 0.5)
      [CallStart; CallTick 0 (Fin 0); CallTick 0 (Fin 9999)]
      (sample_state (Fin 1) (Fin 0.5)) = Some s' /\
    index (this s') = 0%nat /\
    eqv (elapsed (this s')) (duration (this s')).
Proof. eexists. split; [vm_compute; reflexivity |]. split; reflexivity. Qed.

(** [setLines([])] and [setControl('textSpeed', 'fast')] change nothing. *)
Example setLines_empty (s : State) : setLines (VArray []) s = Some (tt, s).
Proof. reflexivity. Qed.

Example setControl_fast (s : State) :
  setControl "textSpeed" (VString [102; 97; 115; 116]%N) s = Some (tt, s).
Proof. reflexivity. Qed.

(** Without an output element the construction fails. *)
Example constructor_without_element :
  constructor (Options.make false VUndefined VUndefined None None) = Throws.
Proof. reflexivity. Qed.

(** A non-positive or non-numeric duration is replaced by 11 seconds. *)
Example constructor_duration_default :
  option_map duration
    (match constructor (Options.make true VUndefined (VNumber (Fin (-3))) None None) with
     | Returns e => Some e
     | Throws => None
     end)
  = Some (Fin 11.0).
Proof. reflexivity. Qed.

(** * Further properties of the code *)

(** ** The clamp and the two curves *)

(** X1. [_clamp01] sends every number but [NaN] into [[0,1]], infinities
    included, and lets [NaN] through as it is; clamping twice is clamping
    once. *)
Theorem clamp01_range_idempotent (v : number) :
  match v with
  | NaN => _clamp01 v = NaN
  | _ => in_unit (_clamp01 v)
  end /\
  _clamp01 (_clamp01 v) = _clamp01 v.
Proof.
  destruct v as [q| | |]; try (split; [simpl; lra | reflexivity]);
    try (split; reflexivity).
  split; [apply _clamp01_in_unit; reflexivity |].
  destruct (_clamp01_Fin q) as [[_ ->]|[[_ ->]|[Hq E]]];
    try reflexivity.
  rewrite E. exact E.
Qed.

(** [_smooth01] on a finite argument: a value in the unit interval, 0 up
    to 0 and 1 from 1 on. *)
Lemma _smooth01_saturates (x : Q) :
  exists a : Q,
    _smooth01 (Fin x) = Fin a /\ 0 <= a <= 1 /\
    (x <= 0 -> a == 0) /\ (1 <= x -> a == 1).
Proof.
  destruct (_smooth01_Fin x) as (c & Ec & Hc & ->).
  eexists. split; [reflexivity |].
  split; [apply smooth_poly_bounds, Hc |].
  destruct (_clamp01_Fin x) as [[Hx E]|[[Hx E]|[Hx E]]];
    rewrite Ec in E; injection E as ->; split; intros H; try lra;
    try reflexivity;
    try (assert (E0 : x == 0) by lra; rewrite E0; reflexivity);
    try (assert (E1 : x == 1) by lra; rewrite E1; reflexivity).
Qed.

(** X2. [_smooth01] returns a value in [[0,1]] for every number but [NaN],
    which it returns as it is: 0 for every finite argument up to 0 and for
    [-Infinity], 1 for every finite argument from 1 on and for
    [+Infinity]. *)
Theorem smooth01_saturates_outside_unit (x : number) :
  match x with
  | NaN => _smooth01 x = NaN
  | PInf => eqv (_smooth01 x) (Fin 1)
  | NInf => eqv (_smooth01 x) (Fin 0)
  | Fin q =>
      exists a : Q,
        _smooth01 x = Fin a /\ 0 <= a <= 1 /\
        (q <= 0 -> a == 0) /\ (1 <= q -> a == 1)
  end.
Proof.
  destruct x as [q| | |]; try (vm_compute; reflexivity).
  apply _smooth01_saturates.
Qed.

(** Halving the scale of the phase, as the curve does. *)
Lemma div_half (q : Q) : q / 0.5 == 2 * q.
Proof. field. Qed.

(** The reveal curve on any number. *)
Lemma _computeRevealPhase_range (phase : number) :
  match phase with
  | NaN => _computeRevealPhase phase = NaN
  | _ => in_unit (_computeRevealPhase phase)
  end.
Proof.
  destruct phase as [p| | |]; try (vm_compute; split; congruence);
    try reflexivity.
  apply _computeRevealPhase_in_unit.
Qed.

(** X3. Whatever number the phase is, [_computeRevealPhase] returns a value
    in [[0,1]], except on [NaN], which it returns as it is.  It returns 0 on
    both infinities and on every finite phase outside the open interval from
    0 to 1: nothing is uncovered before a line starts or once its time is
    up. *)
Theorem reveal_curve_total_range (phase : number) :
  match phase with
  | NaN => _computeRevealPhase phase = NaN
  | PInf | NInf => eqv (_computeRevealPhase phase) (Fin 0)
  | Fin p =>
      exists a : Q,
        _computeRevealPhase phase = Fin a /\ 0 <= a <= 1 /\
        (p <= 0 -> a == 0) /\ (1 <= p -> a == 0)
  end.
Proof.
  destruct phase as [p| | |]; try (vm_compute; reflexivity).
  pose proof (div_half p) as Dp. pose proof (div_half (1 + - p)) as Dp'.
  destruct (_computeRevealPhase_Fin p) as [[Hp ->]|[Hp ->]].
  - destruct (_smooth01_saturates (p / 0.5)) as (a & -> & Ha & Ha0 & _).
    exists a. split; [reflexivity |]. split; [exact Ha |].
    split; intros H; [apply Ha0; lra | lra].
  - destruct (_smooth01_saturates ((1 + - p) / 0.5)) as (a & -> & Ha & Ha0 & _).
    exists a. split; [reflexivity |]. split; [exact Ha |].
    split; intros H; [lra | apply Ha0; lra].
Qed.

(** ** The timeline step and the frame callback *)

Lemma same_but_timeline_refl (e : Engine) : same_but_timeline e e.
Proof. repeat split. Qed.

(** The loop of [_update] writes [elapsed] and [index] only. *)
Lemma _update_while_frame (fuel : nat) :
  forall s s',
    _update_while fuel s = Some (tt, s') ->
    same_but_timeline (this s) (this s') /\ host s' = host s.
Proof.
  induction fuel as [|fuel IH]; intros s s'; rewrite _update_while_eq;
    destruct (elapsed (this s) >? duration (this s))%js;
    intros H; try discriminate;
    try (injection H as <-; split; [apply same_but_timeline_refl | reflexivity]).
  apply IH in H. exact H.
Qed.

Lemma _update_frame (fuel : nat) (dt : number) (s s' : State) :
  _update fuel dt s = Some (tt, s') ->
  same_but_timeline (this s) (this s') /\ host s' = next_energy (host s).
Proof.
  destruct (_update_eq fuel dt s) as (energy & _ & _ & ->).
  intros H. apply _update_while_frame in H. exact H.
Qed.

(** After [k] passes the index has moved [k] lines forward, around the
    end. *)
Lemma wrap_index_closed (len k i : nat) :
  (i < len)%nat -> wrap_index len k i = ((i + k) mod len)%nat.
Proof.
  intros Hi. induction k as [|k IH].
  - unfold wrap_index. simpl.
    rewrite Nat.add_0_r, Nat.mod_small; [reflexivity | exact Hi].
  - change (wrap_index len (S k) i)
      with ((wrap_index len k i + 1) mod len)%nat.
    rewrite IH, Nat.Div0.add_mod_idemp_l. f_equal. lia.
Qed.

(** X5. On a timeline with a finite [elapsed >= 0], a positive finite
    duration and the index within the lines, a step with [dt] and the base
    speed between 0 and a million that passes at most a million line
    durations makes [_update] return as soon as the fuel covers the lines to
    pass.  Afterwards [0 <= elapsed <= duration] and the index is within the
    lines; every field but [elapsed] and [index] is as before, and the host
    has seen one more energy call and nothing else. *)
Theorem update_wraps_timeline (s : State) (e d t b : Q) :
  elapsed (this s) = Fin e ->
  duration (this s) = Fin d ->
  control_or "textSpeed" (Fin 1.0) (this s) = Fin b ->
  0 <= e -> 0 < d ->
  0 <= t <= 1000000 ->
  0 <= b <= 1000000 ->
  e + t * (b * 1.4) <= 1000000 * d ->
  (index (this s) < length (lines (this s)))%nat ->
  exists fuel0 : nat, forall fuel : nat, (fuel0 <= fuel)%nat ->
    exists (s' : State) (e' : Q),
      _update fuel (Fin t) s = Some (tt, s') /\
      elapsed (this s') = Fin e' /\
      0 <= e' <= d /\
      (index (this s') < length (lines (this s')))%nat /\
      same_but_timeline (this s) (this s') /\
      host s' = next_energy (host s).
Proof.
  intros Hel Hdu Hb He Hd [Ht _] [Hb0 _] _ Hix.
  destruct (_update_returns s e d t b Hel Hdu Hb He Hd Ht Hb0 Hix)
    as (fuel0 & Hfuel).
  exists fuel0. intros fuel Hle.
  destruct (Hfuel fuel Hle)
    as (s' & e' & total & k & Hup & He' & _ & _ & Hbounds & _ & Hidx & _).
  destruct (_update_frame fuel (Fin t) s s' Hup) as [Hsame Hhost].
  exists s', e'. repeat split; try assumption; try apply Hbounds; apply Hsame.
Qed.

(** The theorem on the sample engine, for a step of 25 seconds. *)
Lemma update_wraps_timeline_witness :
  exists fuel0 : nat, forall fuel : nat, (fuel0 <= fuel)%nat ->
    exists (s' : State) (e' : Q),
      _update fuel (Fin 25) (sample_state (Fin 1) (Fin 0.5)) = Some (tt, s') /\
      elapsed (this s') = Fin e' /\
      0 <= e' <= 10 /\
      (index (this s') < length (lines (this s')))%nat /\
      same_but_timeline (this (sample_state (Fin 1) (Fin 0.5))) (this s') /\
      host s' = next_energy (host (sample_state (Fin 1) (Fin 0.5))).
Proof.
  apply (update_wraps_timeline (sample_state (Fin 1) (Fin 0.5)) 0 10 25 1);
    try reflexivity; try (split; vm_compute; congruence);
    try (vm_compute; congruence).
  vm_compute. lia.
Defined.

(** X6. A frame that arrives after [stop()] does nothing: the state after
    [stop()] followed by the callback is the state after [stop()], with no
    new frame requested. *)
Theorem stopped_tick_is_noop (Math_sin : number -> number)
    (random_stream : nat -> Q) (fuel : nat) (ts : number) (s : State) :
  (stop ;;; _loop Math_sin random_stream fuel ts) s = stop s.
Proof.
  unfold bind, stop, write. rewrite _loop_eq. reflexivity.
Qed.

(** X7. On a running engine with finite timestamps a frame is an [_update]
    by [dt], followed by [_render] and the request of the next frame, with
    the timestamp remembered, where [dt] is the time since the previous frame
    in seconds when that exceeds a millisecond and exactly a millisecond
    otherwise: when less time has passed, when the timestamp goes back, and
    on the first frame after a start, which has no previous frame. *)
Theorem tick_step_at_least_a_millisecond (Math_sin : number -> number)
    (random_stream : nat -> Q) (fuel : nat) (ts : Q) (s : State) :
  running (this s) = true ->
  (forall l, _lastTs (this s) = Some l -> finite l) ->
  exists t : Q,
    (_lastTs (this s) = None -> t = 0.001) /\
    (forall l : Q, _lastTs (this s) = Some (Fin l) ->
       (0.001 < (ts - l) / 1000 -> t = (ts - l) / 1000) /\
       ((ts - l) / 1000 <= 0.001 -> t = 0.001)) /\
    _loop Math_sin random_stream fuel (Fin ts) s =
    (_update fuel (Fin t) ;;; _render Math_sin random_stream ;;;
     requestAnimationFrame)
      (mkState (set_lastTs (Some (Fin ts)) (this s)) (host s)).
Proof.
  intros Hrun Hlast. rewrite _loop_eq, Hrun. cbv zeta.
  destruct (_lastTs (this s)) as [l|] eqn:El.
  - specialize (Hlast l eq_refl). destruct l as [lq| | |]; try contradiction.
    cbv beta iota delta [sub add neg div].
    change (Qeq_bool 1000 0) with false. cbv iota.
    unfold max, lt. destruct (Qle_bool ((ts + - lq) / 1000) 0.001) eqn:E.
    + apply Qle_bool_true in E. exists 0.001.
      split; [discriminate |]. split; [| reflexivity].
      intros l' Hl'. injection Hl' as <-. unfold Qminus.
      split; [intros H; lra | reflexivity].
    + apply Qle_bool_false in E. exists ((ts + - lq) / 1000).
      split; [discriminate |]. split; [| reflexivity].
      intros l' Hl'. injection Hl' as <-. unfold Qminus.
      split; [reflexivity | intros H; lra].
  - exists 0.001. split; [reflexivity |]. split; [discriminate |].
    cbv beta iota delta [sub add neg div].
    change (Qeq_bool 1000 0) with false. cbv iota.
    unfold max, lt.
    assert (E : Qle_bool ((ts + - ts) / 1000) 0.001 = true).
    { apply Qle_bool_iff. assert (H : (ts + - ts) / 1000 == 0) by field. lra. }
    rewrite E. reflexivity.
Qed.

(** The theorem on the running sample engine, whose previous frame was at
    1000 ms, for a frame at 3500 ms. *)
Lemma tick_step_at_least_a_millisecond_witness :
  exists t : Q,
    (_lastTs (this sample_running) = None -> t = 0.001) /\
    (forall l : Q, _lastTs (this sample_running) = Some (Fin l) ->
       (0.001 < (3500 - l) / 1000 -> t = (3500 - l) / 1000) /\
       ((3500 - l) / 1000 <= 0.001 -> t = 0.001)) /\
    _loop (fun _ => Fin 1) (fun _ => 0.5) 1 (Fin 3500) sample_running =
    (_update 1 (Fin t) ;;; _render (fun _ => Fin 1) (fun _ => 0.5) ;;;
     requestAnimationFrame)
      (mkState (set_lastTs (Some (Fin 3500)) (this sample_running))
               (host sample_running)).
Proof.
  apply (tick_step_at_least_a_millisecond (fun _ => Fin 1) (fun _ => 0.5) 1
           3500 sample_running).
  - reflexivity.
  - intros l H. vm_compute in H. injection H as <-. exact I.
Defined.

(** ** What is shown *)

Lemma slice_to_nil (e : number) : slice_to [] e = [].
Proof.
  destruct e as [q| | |]; try reflexivity. unfold slice_to.
  destruct (Qtruncate q <? 0)%Z; apply take_nil.
Qed.

Lemma slice_to_length (s : jsstring) (e : number) :
  (length (slice_to s e) <= length s)%nat.
Proof.
  destruct e as [q| | |]; simpl; try lia.
  destruct (Qtruncate q <? 0)%Z; rewrite length_take; lia.
Qed.

(** The prefix of [k] characters, for [k] an integer from 0 to the
    length. *)
Lemma slice_to_integer (s : jsstring) (k : Z) :
  (0 <= k)%Z -> slice_to s (Fin (inject_Z k)) = take (Z.to_nat k) s.
Proof.
  intros Hk. unfold slice_to, Qtruncate.
  assert (E : Qle_bool 0 (inject_Z k) = true).
  { apply Qle_bool_iff. change 0 with (inject_Z 0). rewrite <- Zle_Qle. exact Hk. }
  rewrite E, Qfloor_Z.
  destruct (Z.ltb_spec k 0) as [H|_]; [lia | reflexivity].
Qed.

(** The number of characters uncovered at a reveal value in the unit
    interval is an integer from 0 to the length of the line. *)
Lemma visible_length_bounds (line : jsstring) (r : Q) :
  0 <= r <= 1 ->
  floor (length_number line * Fin r)%js
  = Fin (inject_Z (Qfloor (inject_Z (Z.of_nat (length line)) * r))) /\
  (0 <= Qfloor (inject_Z (Z.of_nat (length line)) * r)
   <= Z.of_nat (length line))%Z.
Proof.
  intros [Hr0 Hr1]. split; [reflexivity |].
  set (L := Z.of_nat (length line)).
  assert (HL : 0 <= inject_Z L).
  { change 0 with (inject_Z 0). rewrite <- Zle_Qle. subst L. lia. }
  split.
  - change 0%Z with (Qfloor 0). apply Qfloor_resp_le.
    apply Qmult_le_0_compat; assumption.
  - rewrite <- (Qfloor_Z L) at 2. apply Qfloor_resp_le. nra.
Qed.

(** [Math.max(0, ...)] in [_render] never changes the prefix that is cut:
    the reveal value is in the unit interval or [NaN]. *)
Lemma render_max_redundant (line : jsstring) (phase : number) :
  slice_to line
    (max (Fin 0) (floor (length_number line * _computeRevealPhase phase)%js))
  = slice_to line (floor (length_number line * _computeRevealPhase phase)%js).
Proof.
  pose proof (_computeRevealPhase_range phase) as Hr.
  destruct (_computeRevealPhase phase) as [r| | |] eqn:E.
  - assert (Hr' : 0 <= r <= 1) by (destruct phase; simpl in Hr; try exact Hr; discriminate).
    destruct (visible_length_bounds line r Hr') as [-> [Hk0 Hk1]].
    set (k := Qfloor _) in *.
    unfold max, lt. destruct (Qle_bool (inject_Z k) 0) eqn:Ek; simpl; [| reflexivity].
    apply Qle_bool_true in Ek. change 0 with (inject_Z 0) in Ek.
    rewrite <- Zle_Qle in Ek. assert (k = 0%Z) as -> by lia. reflexivity.
  - destruct phase; simpl in Hr; try contradiction; discriminate.
  - destruct phase; simpl in Hr; try contradiction; discriminate.
  - reflexivity.
Qed.

(** [_applyGlitch] always returns, with the engine as it was and the host
    changed only by the random draws. *)
Lemma _applyGlitch_returns (Math_sin : number -> number)
    (random_stream : nat -> Q) (text : jsstring) (phase energy : number)
    (s : State) :
  exists (out : jsstring) (s' : State),
    _applyGlitch Math_sin random_stream text phase energy s = Some (out, s') /\
    this s' = this s /\
    only_random_drawn (host s) (host s') /\
    ((forall n, 0 <= random_stream n < 1) ->
     glitchGlyphs (this s) <> [] ->
     length out = length text).
Proof.
  destruct (_applyGlitch_eq Math_sin random_stream text phase energy s)
    as (gi & _ & ->).
  destruct (_applyGlitch_for_spec Math_sin random_stream gi (elapsed (this s))
              (glitchGlyphs (this s)) text 0 [] s)
    as (out & s' & Hrun & Hthis & Hhost & Hlen).
  exists out, s'. repeat split; try assumption; try apply Hhost.
  intros Hrange Hne. apply (Hlen Hrange Hne).
Qed.

(** The two methods, unfolded. *)
Lemma getCurrentRenderedText_eq (Math_sin : number -> number)
    (random_stream : nat -> Q) (s : State) :
  getCurrentRenderedText Math_sin random_stream s =
  let line := current_line (this s) in
  let phase := (elapsed (this s) / duration (this s))%js in
  match _safeEnergy s with
  | Some (energy, s0) =>
      _applyGlitch Math_sin random_stream
        (slice_to line
           (floor (length_number line * _computeRevealPhase phase)%js))
        phase energy s0
  | None => None
  end.
Proof. reflexivity. Qed.

Lemma _render_eq (Math_sin : number -> number) (random_stream : nat -> Q)
    (s : State) :
  _render Math_sin random_stream s =
  let line := current_line (this s) in
  let phase := (elapsed (this s) / duration (this s))%js in
  match line with
  | [] => Some (tt, mkState (this s) (set_textContent [] (host s)))
  | _ =>
      match _safeEnergy s with
      | Some (energy, s0) =>
          match _applyGlitch Math_sin random_stream
                  (slice_to line
                     (max (Fin 0)
                        (floor (length_number line
                                * _computeRevealPhase phase)%js)))
                  phase energy s0 with
          | Some (glitched, s1) =>
              Some (tt, mkState (this s1) (set_textContent glitched (host s1)))
          | None => None
          end
      | None => None
      end
  end.
Proof.
  unfold _render, bind at 1, read at 1. cbv zeta.
  destruct (current_line (this s)); reflexivity.
Qed.

(** [_render] and [getCurrentRenderedText], started in the same state,
    produce the same text; [_render] leaves the engine as it was and requests
    no frame. *)
Lemma _render_shows_text (Math_sin : number -> number)
    (random_stream : nat -> Q) (s : State) :
  exists (text : jsstring) (s1 s2 : State),
    getCurrentRenderedText Math_sin random_stream s = Some (text, s1) /\
    _render Math_sin random_stream s = Some (tt, s2) /\
    textContent (host s2) = text /\
    this s2 = this s /\
    frame_requests (host s2) = frame_requests (host s).
Proof.
  rewrite getCurrentRenderedText_eq, _render_eq. cbv zeta.
  destruct (_safeEnergy_returns s) as (energy & -> & _ & _).
  rewrite render_max_redundant.
  set (s0 := mkState (this s) (next_energy (host s))).
  set (phase := (elapsed (this s) / duration (this s))%js).
  destruct (current_line (this s)) as [|c line] eqn:El.
  - rewrite slice_to_nil. do 3 eexists.
    split; [reflexivity |]. split; [reflexivity |]. repeat split.
  - set (prefix := slice_to _ _).
    destruct (_applyGlitch_returns Math_sin random_stream prefix phase energy s0)
      as (text & s1 & -> & Hthis & (Htc & _ & Hfr) & _).
    do 3 eexists. split; [reflexivity |]. split; [reflexivity |].
    cbn [this host textContent frame_requests set_textContent].
    repeat split; assumption.
Qed.

(** X8. What [_render] writes to the output element is what
    [getCurrentRenderedText()] returns from the same state, in every state:
    the [Math.max(0, ...)] and the early exit on an empty line that only
    [_render] has make no difference to the text.  [_render] leaves the
    engine as it was. *)
Theorem render_shows_current_text (Math_sin : number -> number)
    (random_stream : nat -> Q) (s : State) :
  exists (text : jsstring) (s1 s2 : State),
    getCurrentRenderedText Math_sin random_stream s = Some (text, s1) /\
    _render Math_sin random_stream s = Some (tt, s2) /\
    textContent (host s2) = text /\
    this s2 = this s /\
    frame_requests (host s2) = frame_requests (host s).
Proof. apply _render_shows_text. Qed.

(** What [slice] cuts is a prefix. *)
Lemma slice_to_prefix (s : jsstring) (e : number) :
  exists m : nat, slice_to s e = take m s.
Proof.
  destruct e as [q| | |]; simpl.
  - destruct (Qtruncate q <? 0)%Z; eexists; reflexivity.
  - exists (length s). symmetry. apply firstn_all.
  - exists 0%nat. reflexivity.
  - exists 0%nat. reflexivity.
Qed.

(** X9. With random draws in [[0,1)] and a non-empty palette, the text
    [getCurrentRenderedText()] returns is never longer than the current
    line, and wherever it reaches a separator of the line, the separator is
    there unchanged. *)
Theorem rendered_text_within_line (Math_sin : number -> number)
    (random_stream : nat -> Q) (s : State) :
  (forall n, 0 <= random_stream n < 1) ->
  glitchGlyphs (this s) <> [] ->
  exists (text : jsstring) (s' : State),
    getCurrentRenderedText Math_sin random_stream s = Some (text, s') /\
    (length text <= length (current_line (this s)))%nat /\
    forall (i : nat) (ch : codeunit),
      (i < length text)%nat ->
      current_line (this s) !! i = Some ch ->
      is_separator ch = true ->
      text !! i = Some ch.
Proof.
  intros Hrange Hne.
  rewrite getCurrentRenderedText_eq. cbv zeta.
  destruct (_safeEnergy_returns s) as (energy & -> & _ & _).
  set (line := current_line (this s)).
  set (phase := (elapsed (this s) / duration (this s))%js).
  set (s0 := mkState (this s) (next_energy (host s))).
  destruct (slice_to_prefix line
              (floor (length_number line * _computeRevealPhase phase)%js))
    as (m & ->).
  destruct (_applyGlitch_eq Math_sin random_stream (take m line) phase energy s0)
    as (gi & _ & ->).
  destruct (_applyGlitch_for_spec Math_sin random_stream gi (elapsed (this s0))
              (glitchGlyphs (this s0)) (take m line) 0 [] s0)
    as (text & s' & Hrun & _ & _ & Hsep).
  destruct (Hsep Hrange Hne) as [Hlen Hkeep].
  exists text, s'. split; [exact Hrun |].
  rewrite Hlen, length_take. split; [lia |].
  intros i ch Hi Hline Hch. apply Hkeep; [| exact Hch].
  etransitivity; [apply lookup_take_lt; lia | exact Hline].
Qed.

(** The theorem on the sample engine a third of the way through line 0. *)
Lemma rendered_text_within_line_witness :
  exists (text : jsstring) (s' : State),
    getCurrentRenderedText (fun _ => Fin 1) (fun _ => 0.5)
      (mkState (set_elapsed (Fin 3) (sample_engine (Fin 1) (Fin 1))) fresh_world)
    = Some (text, s') /\
    (length text
     <= length (current_line (set_elapsed (Fin 3) (sample_engine (Fin 1) (Fin 1)))))%nat /\
    forall (i : nat) (ch : codeunit),
      (i < length text)%nat ->
      current_line (set_elapsed (Fin 3) (sample_engine (Fin 1) (Fin 1))) !! i
      = Some ch ->
      is_separator ch = true ->
      text !! i = Some ch.
Proof.
  apply (rendered_text_within_line (fun _ => Fin 1) (fun _ => 0.5)
           (mkState (set_elapsed (Fin 3) (sample_engine (Fin 1) (Fin 1)))
                    fresh_world)).
  - intros n. split; vm_compute; congruence.
  - vm_compute. congruence.
Defined.

(** X10. Half way through a line the whole line is uncovered: when
    [elapsed] is half of a positive finite [duration], the text returned has
    the length of the current line (draws in [[0,1)], non-empty palette). *)
Theorem whole_line_at_half_time (Math_sin : number -> number)
    (random_stream : nat -> Q) (s : State) (e d : Q) :
  elapsed (this s) = Fin e ->
  duration (this s) = Fin d ->
  0 < d ->
  2 * e == d ->
  (forall n, 0 <= random_stream n < 1) ->
  glitchGlyphs (this s) <> [] ->
  exists (text : jsstring) (s' : State),
    getCurrentRenderedText Math_sin random_stream s = Some (text, s') /\
    length text = length (current_line (this s)).
Proof.
  intros Hel Hdu Hd Hhalf Hrange Hne.
  rewrite getCurrentRenderedText_eq. cbv zeta.
  destruct (_safeEnergy_returns s) as (energy & -> & _ & _).
  set (line := current_line (this s)).
  set (s0 := mkState (this s) (next_energy (host s))).
  rewrite Hel, Hdu.
  assert (Hphase : (Fin e / Fin d)%js = Fin (e / d)).
  { unfold div. destruct (Qeq_bool d 0) eqn:E; [| reflexivity].
    apply Qeq_bool_true in E. lra. }
  rewrite Hphase.
  assert (Hp : e / d == 0.5).
  { assert (H : e / d == (2 * e) / d * 0.5) by (field; lra).
    rewrite H, Hhalf. field. lra. }
  assert (Hr : exists a, _computeRevealPhase (Fin (e / d)) = Fin a /\ a == 1).
  { destruct (_computeRevealPhase_Fin (e / d)) as [[Hlt _]|[_ ->]]; [lra |].
    destruct (_smooth01_saturates ((1 + - (e / d)) / 0.5)) as (a & -> & _ & _ & H1).
    exists a. split; [reflexivity |]. apply H1.
    rewrite div_half. lra. }
  destruct Hr as (a & -> & Ha).
  assert (Ha' : 0 <= a <= 1) by lra.
  destruct (visible_length_bounds line a Ha') as [-> [Hk0 _]].
  assert (Hk : Qfloor (inject_Z (Z.of_nat (length line)) * a)
               = Z.of_nat (length line)).
  { rewrite <- (Qfloor_Z (Z.of_nat (length line))) at 2.
    apply Qfloor_comp. rewrite Ha. ring. }
  rewrite Hk, slice_to_integer by lia. rewrite Nat2Z.id, firstn_all.
  destruct (_applyGlitch_returns Math_sin random_stream line (Fin (e / d))
              energy s0) as (text & s' & -> & _ & _ & Hlen).
  exists text, s'. split; [reflexivity |]. apply Hlen; assumption.
Qed.

(** The theorem on the sample engine at [elapsed = 5] of 10 seconds. *)
Lemma whole_line_at_half_time_witness :
  exists (text : jsstring) (s' : State),
    getCurrentRenderedText (fun _ => Fin 1) (fun _ => 0.5)
      (mkState (set_elapsed (Fin 5) (sample_engine (Fin 1) (Fin 1))) fresh_world)
    = Some (text, s') /\
    length text
    = length (current_line (set_elapsed (Fin 5) (sample_engine (Fin 1) (Fin 1)))).
Proof.
  apply (whole_line_at_half_time (fun _ => Fin 1) (fun _ => 0.5)
           (mkState (set_elapsed (Fin 5) (sample_engine (Fin 1) (Fin 1)))
                    fresh_world) 5 10).
  - reflexivity.
  - reflexivity.
  - vm_compute. congruence.
  - vm_compute. congruence.
  - intros n. split; vm_compute; congruence.
  - vm_compute. congruence.
Defined.

(** X11. A frame on a running engine returns once the fuel covers the
    lines to pass, when the timeline has a finite [elapsed >= 0], a positive
    finite duration and the index within the lines, the base speed lies
    between 0 and a million, the timestamps are finite and at most [T]
    seconds apart with [T] up to a million, and a step of [T] seconds passes
    at most a million line durations.  The frame leaves
    [0 <= elapsed <= duration] and the index within the lines, leaves lines,
    duration and controls as they were, keeps the engine running, remembers
    the timestamp and requests exactly one more frame. *)
Theorem tick_returns_and_requests_frame (Math_sin : number -> number)
    (random_stream : nat -> Q) (s : State) (ts e d b T : Q) :
  running (this s) = true ->
  elapsed (this s) = Fin e ->
  duration (this s) = Fin d ->
  control_or "textSpeed" (Fin 1.0) (this s) = Fin b ->
  (forall l, _lastTs (this s) = Some l ->
     exists lq : Q, l = Fin lq /\ (ts - lq) / 1000 <= T) ->
  0.001 <= T <= 1000000 ->
  0 <= e -> 0 < d ->
  0 <= b <= 1000000 ->
  e + T * (b * 1.4) <= 1000000 * d ->
  (index (this s) < length (lines (this s)))%nat ->
  exists fuel0 : nat, forall fuel : nat, (fuel0 <= fuel)%nat ->
    exists (s' : State) (e' : Q),
      _loop Math_sin random_stream fuel (Fin ts) s = Some (tt, s') /\
      elapsed (this s') = Fin e' /\
      0 <= e' <= d /\
      (index (this s') < length (lines (this s')))%nat /\
      lines (this s') = lines (this s) /\
      duration (this s') = duration (this s) /\
      controls (this s') = controls (this s) /\
      running (this s') = true /\
      _lastTs (this s') = Some (Fin ts) /\
      frame_requests (host s') = S (frame_requests (host s)).
Proof.
  intros Hrun Hel Hdu Hb Hlast _ He Hd [Hb0 _] _ Hix.
  set (last := match _lastTs (this s) with Some l => l | None => Fin ts end).
  assert (Hdt : exists t, max (Fin 0.001) ((Fin ts - last) / Fin 1000)%js
                          = Fin t /\ 0.001 <= t).
  { subst last. destruct (_lastTs (this s)) as [l|] eqn:El.
    - destruct (Hlast l eq_refl) as (lq & -> & _). apply tick_dt_finite.
    - apply tick_dt_finite. }
  destruct Hdt as (t & Hdt & Ht).
  set (s1 := mkState (set_lastTs (Some (Fin ts)) (this s)) (host s)).
  destruct (_update_returns s1 e d t b) as (fuel0 & Hfuel);
    try assumption; [lra |].
  exists fuel0. intros fuel Hle.
  destruct (Hfuel fuel Hle)
    as (s2 & e' & total & k & Hup & Hel' & _ & _ & Hbounds & _ & Hix' & _).
  destruct (_update_frame fuel (Fin t) s1 s2 Hup)
    as [(Hl & Hd' & _ & Hc & _ & Hr & Hts) Hhost].
  destruct (_render_shows_text Math_sin random_stream s2)
    as (text & sx & s3 & _ & Hren & _ & Hthis & Hfr).
  exists (mkState (this s3) (queue_frame (host s3))), e'.
  rewrite _loop_eq, Hrun. cbv zeta. fold last. rewrite Hdt. fold s1.
  unfold bind. rewrite Hup, Hren.
  split; [reflexivity |]. cbn [this host]. rewrite Hthis.
  split; [exact Hel' |]. split; [exact Hbounds |]. split; [exact Hix' |].
  split; [exact Hl |]. split; [exact Hd' |]. split; [exact Hc |].
  split; [rewrite Hr; exact Hrun |]. split; [exact Hts |].
  cbn [queue_frame frame_requests]. rewrite Hfr, Hhost. reflexivity.
Qed.

(** The theorem on the running sample engine, whose previous frame was at
    1000 ms, for a frame at 3500 ms and [T] = 2.5 s. *)
Lemma tick_returns_and_requests_frame_witness :
  exists fuel0 : nat, forall fuel : nat, (fuel0 <= fuel)%nat ->
    exists (s' : State) (e' : Q),
      _loop (fun _ => Fin 1) (fun _ => 0.5) fuel (Fin 3500) sample_running
      = Some (tt, s') /\
      elapsed (this s') = Fin e' /\
      0 <= e' <= 10 /\
      (index (this s') < length (lines (this s')))%nat /\
      lines (this s') = lines (this sample_running) /\
      duration (this s') = duration (this sample_running) /\
      controls (this s') = controls (this sample_running) /\
      running (this s') = true /\
      _lastTs (this s') = Some (Fin 3500) /\
      frame_requests (host s') = S (frame_requests (host sample_running)).
Proof.
  apply (tick_returns_and_requests_frame (fun _ => Fin 1) (fun _ => 0.5)
           sample_running 3500 0 10 1 2.5);
    try reflexivity; try (split; vm_compute; congruence);
    try (vm_compute; congruence).
  - intros l H. vm_compute in H. injection H as <-.
    exists 1000. split; [reflexivity | vm_compute; congruence].
  - vm_compute. lia.
Defined.

(** At time 0 of a line the phase is 0, or [NaN] when the duration is 0 or
    [NaN]. *)
Lemma phase_at_zero (d : number) :
  (Fin 0 / d)%js = NaN \/ exists p : Q, (Fin 0 / d)%js = Fin p /\ p == 0.
Proof.
  destruct d as [y| | |]; simpl; auto.
  - destruct (Qeq_bool y 0) eqn:E; [left; reflexivity |].
    apply Qeq_bool_false in E. right. eexists. split; [reflexivity |].
    field. exact E.
  - right. exists 0. split; reflexivity.
  - right. exists 0. split; reflexivity.
Qed.

(** At phase 0, as on [NaN], no character is uncovered. *)
Lemma blank_at_zero (line : jsstring) (d : number) :
  slice_to line
    (floor (length_number line * _computeRevealPhase (Fin 0 / d)%js)%js) = [].
Proof.
  destruct (phase_at_zero d) as [-> | (p & -> & Hp)]; [reflexivity |].
  destruct (_computeRevealPhase_Fin p) as [[_ ->]|[Hge _]]; [| lra].
  destruct (_smooth01_saturates (p / 0.5)) as (a & -> & Ha & Ha0 & _).
  assert (Hz : a == 0) by (apply Ha0; rewrite div_half; lra).
  destruct (visible_length_bounds line a Ha) as [-> _].
  assert (Hk : Qfloor (inject_Z (Z.of_nat (length line)) * a) = 0%Z).
  { change 0%Z with (Qfloor 0). apply Qfloor_comp. rewrite Hz. ring. }
  rewrite Hk. reflexivity.
Qed.

(** X12. Right after [reset()] nothing is shown: in every state, [reset()]
    followed by [getCurrentRenderedText()] returns the empty string, and the
    engine is the one [reset()] left, at line 0 and time 0 with everything
    else as before. *)
Theorem reset_blanks_text (Math_sin : number -> number)
    (random_stream : nat -> Q) (s : State) :
  exists s' : State,
    (reset ;;; getCurrentRenderedText Math_sin random_stream) s
    = Some ([], s') /\
    this s' = set_elapsed (Fin 0) (set_index 0 (this s)).
Proof.
  unfold bind at 1. unfold reset, bind, write. cbn [this host].
  rewrite getCurrentRenderedText_eq. cbv zeta.
  match goal with
  | |- context [_safeEnergy ?st] =>
      destruct (_safeEnergy_returns st) as (energy & -> & _ & _)
  end.
  cbn [this host elapsed duration set_elapsed set_index].
  rewrite blank_at_zero.
  eexists. split; reflexivity.
Qed.

(** X13. After a start the first frame moves the timeline by one
    millisecond only, whatever its timestamp and however long the engine was
    stopped: [start()] on a stopped engine, then a frame, is [_update] by
    [0.001], [_render] and the request of the next frame. *)
Theorem first_frame_after_start (Math_sin : number -> number)
    (random_stream : nat -> Q) (fuel : nat) (ts : Q) (s : State) :
  running (this s) = false ->
  (start ;;; _loop Math_sin random_stream fuel (Fin ts)) s =
  (_update fuel (Fin 0.001) ;;; _render Math_sin random_stream ;;;
   requestAnimationFrame)
    (mkState (set_lastTs (Some (Fin ts)) (set_running true (this s)))
             (queue_frame (host s))).
Proof.
  intros Hrun. unfold bind at 1. unfold start, bind, read. cbn [this].
  rewrite Hrun. unfold write, requestAnimationFrame, effect. cbn [this host].
  rewrite _loop_eq. cbn [this host running set_lastTs set_running _lastTs].
  cbv zeta.
  assert (Hdt : max (Fin 0.001) ((Fin ts - Fin ts) / Fin 1000)%js = Fin 0.001).
  { cbv beta iota delta [sub add neg div].
    change (Qeq_bool 1000 0) with false. cbv iota. unfold max, lt.
    assert (E : Qle_bool ((ts + - ts) / 1000) 0.001 = true).
    { apply Qle_bool_iff. assert (H : (ts + - ts) / 1000 == 0) by field. lra. }
    rewrite E. reflexivity. }
  rewrite Hdt. reflexivity.
Qed.

(** The theorem on the sample engine, stopped, for a frame at 90 s. *)
Lemma first_frame_after_start_witness :
  (start ;;; _loop (fun _ => Fin 1) (fun _ => 0.5) 0 (Fin 90000))
    (sample_state (Fin 1) (Fin 0.5)) =
  (_update 0 (Fin 0.001) ;;; _render (fun _ => Fin 1) (fun _ => 0.5) ;;;
   requestAnimationFrame)
    (mkState (set_lastTs (Some (Fin 90000))
                (set_running true (this (sample_state (Fin 1) (Fin 0.5)))))
             (queue_frame (host (sample_state (Fin 1) (Fin 0.5))))).
Proof.
  apply (first_frame_after_start (fun _ => Fin 1) (fun _ => 0.5) 0 90000
           (sample_state (Fin 1) (Fin 0.5))).
  reflexivity.
Defined.

(** X14. [stop()] does not withdraw the frame that is queued: on a stopped
    engine, [start()], [stop()], [start()] requests two frames, and the
    engine is left running with both of them queued. *)
Theorem restart_requests_second_frame (s : State) :
  running (this s) = false ->
  exists s' : State,
    (start ;;; stop ;;; start) s = Some (tt, s') /\
    running (this s') = true /\
    frame_requests (host s') = S (S (frame_requests (host s))) /\
    exists s1 : State,
      start s = Some (tt, s1) /\
      frame_requests (host s1) = S (frame_requests (host s)).
Proof.
  intros Hrun. destruct s as [[ls du ge cs gl ix el rn ts] w].
  simpl in Hrun. subst rn.
  eexists. split; [reflexivity |]. split; [reflexivity |].
  split; [reflexivity |]. eexists. split; reflexivity.
Qed.

(** The theorem on the sample engine. *)
Lemma restart_requests_second_frame_witness :
  exists s' : State,
    (start ;;; stop ;;; start) (sample_state (Fin 1) (Fin 0)) = Some (tt, s') /\
    running (this s') = true /\
    frame_requests (host s')
    = S (S (frame_requests (host (sample_state (Fin 1) (Fin 0))))) /\
    exists s1 : State,
      start (sample_state (Fin 1) (Fin 0)) = Some (tt, s1) /\
      frame_requests (host s1)
      = S (frame_requests (host (sample_state (Fin 1) (Fin 0)))).
Proof.
  apply (restart_requests_second_frame (sample_state (Fin 1) (Fin 0))).
  reflexivity.
Defined.

(** ** Construction and configuration *)

(** The duration the constructor settles on is positive. *)
Lemma constructor_duration_positive (v : value) :
  (match v with
   | VNumber d => if (d >? Fin 0)%js then d else Fin 11.0
   | _ => Fin 11.0
   end >? Fin 0)%js = true.
Proof.
  destruct v as [| |b|n|str|xs|]; try reflexivity.
  destruct n as [q| | |]; try reflexivity.
  unfold gt, lt. destruct (Qle_bool q 0) eqn:E; simpl;
    [reflexivity | rewrite E; reflexivity].
Qed.

(** X15. A construction that succeeds was given an element, and yields a
    stopped engine at line 0 and time 0 with a positive duration and the
    built-in palette.  Every control the caller passed under a name other
    than [__proto__] is stored; a number passed under [__proto__] is not;
    [textSpeed] and [textGlitch] are 1.0 and 0.3 when the caller passed
    none. *)
Theorem constructor_result (options : Options.t) (e : Engine) :
  constructor options = Returns e ->
  Options.element options = true /\
  (duration e >? Fin 0)%js = true /\
  index e = 0%nat /\ elapsed e = Fin 0 /\
  running e = false /\ _lastTs e = None /\
  glitchGlyphs e = default_glyphs /\
  (forall name v,
     name <> "__proto__" ->
     default (∅ : gmap string number) (Options.controls options) !! name = Some v ->
     controls e !! name = Some v) /\
  controls e !! "__proto__" = None /\
  (default (∅ : gmap string number) (Options.controls options) !! "textSpeed" = None ->
   controls e !! "textSpeed" = Some (Fin 1.0)) /\
  (default (∅ : gmap string number) (Options.controls options) !! "textGlitch" = None ->
   controls e !! "textGlitch" = Some (Fin 0.3)).
Proof.
  unfold constructor. destruct (Options.element options); [| discriminate].
  intros H. injection H as <-. cbn [negb duration index elapsed running
    _lastTs glitchGlyphs controls].
  set (oc := default (∅ : gmap string number) (Options.controls options)).
  split; [reflexivity |]. split.
  { apply constructor_duration_positive. }
  repeat (split; [reflexivity |]).
  split.
  { intros name v Hname Hv. apply lookup_union_Some_l.
    rewrite lookup_delete_ne by congruence. exact Hv. }
  split.
  { rewrite lookup_union_r by apply lookup_delete_eq. reflexivity. }
  split; intros Hnone;
    (rewrite lookup_union_r;
     [reflexivity | rewrite lookup_delete_ne by discriminate; exact Hnone]).
Qed.

(** The theorem on the sample construction. *)
Lemma constructor_result_witness :
  Options.element sample_options = true /\
  (duration (this sample_new) >? Fin 0)%js = true /\
  index (this sample_new) = 0%nat /\ elapsed (this sample_new) = Fin 0 /\
  running (this sample_new) = false /\ _lastTs (this sample_new) = None /\
  glitchGlyphs (this sample_new) = default_glyphs /\
  (forall name v,
     name <> "__proto__" ->
     default (∅ : gmap string number) (Options.controls sample_options) !! name
     = Some v ->
     controls (this sample_new) !! name = Some v) /\
  controls (this sample_new) !! "__proto__" = None /\
  (default (∅ : gmap string number) (Options.controls sample_options)
     !! "textSpeed" = None ->
   controls (this sample_new) !! "textSpeed" = Some (Fin 1.0)) /\
  (default (∅ : gmap string number) (Options.controls sample_options)
     !! "textGlitch" = None ->
   controls (this sample_new) !! "textGlitch" = Some (Fin 0.3)).
Proof.
  apply (constructor_result sample_options (this sample_new)). reflexivity.
Defined.

(** A frame that returns has changed nothing of the engine but the
    timeline and the remembered timestamp. *)
Lemma _loop_frame (Math_sin : number -> number) (random_stream : nat -> Q)
    (fuel : nat) (ts : number) (s s' : State) :
  _loop Math_sin random_stream fuel ts s = Some (tt, s') ->
  lines (this s') = lines (this s) /\
  duration (this s') = duration (this s) /\
  getEnergy (this s') = getEnergy (this s) /\
  controls (this s') = controls (this s) /\
  glitchGlyphs (this s') = glitchGlyphs (this s) /\
  running (this s') = running (this s).
Proof.
  rewrite _loop_eq.
  destruct (running (this s)) eqn:Erun;
    [| intros H; injection H as <-; rewrite Erun; repeat split].
  cbv zeta. set (dt := max _ _).
  set (s1 := mkState (set_lastTs (Some ts) (this s)) (host s)).
  unfold bind at 1.
  destruct (_update fuel dt s1) as [[[] s2]|] eqn:Eup; [| discriminate].
  apply _update_frame in Eup.
  destruct Eup as [(Hl & Hd & Hg & Hc & Hgl & Hr & _) _].
  unfold bind at 1.
  destruct (_render_shows_text Math_sin random_stream s2)
    as (text & sx & s3 & _ & -> & _ & Hthis & _).
  unfold requestAnimationFrame, effect. intros H. injection H as <-.
  cbn [this]. rewrite Hthis, Hl, Hd, Hg, Hc, Hgl, Hr. subst s1. cbn.
  rewrite Erun. repeat split.
Qed.

(** What a call that returns can change: nothing ever changes the duration,
    the palette or the energy callback; the controls change through
    [setControl] only, the lines through [setLines] only, and the running
    flag through [start] and [stop] only. *)
Lemma perform_frame (Math_sin : number -> number) (random_stream : nat -> Q)
    (c : call) (s s' : State) :
  perform Math_sin random_stream c s = Some (tt, s') ->
  duration (this s') = duration (this s) /\
  glitchGlyphs (this s') = glitchGlyphs (this s) /\
  getEnergy (this s') = getEnergy (this s) /\
  (controls (this s') = controls (this s) \/
   exists name n, c = CallSetControl name (VNumber n)) /\
  (lines (this s') = lines (this s) \/ exists arg, c = CallSetLines arg) /\
  (running (this s') = running (this s) \/ c = CallStart \/ c = CallStop).
Proof.
  destruct c as [| | |arg|name v| |fuel ts]; simpl; intros H.
  - unfold start, bind, read in H. cbn [this] in H.
    destruct (running (this s)); injection H as <-; cbn; auto 10.
  - injection H as <-. cbn. auto 10.
  - injection H as <-. cbn. auto 10.
  - unfold setLines in H. destruct (nonempty_array arg) as [xs|];
      injection H as <-; cbn; eauto 10.
  - destruct v; injection H as <-; cbn; try (auto 10; fail).
    repeat split; auto. right. eauto.
  - destruct (getCurrentRenderedText_returns Math_sin random_stream s)
      as (text & s1 & energy & Hrun & Hthis & _).
    unfold bind in H. rewrite Hrun in H. injection H as <-.
    rewrite Hthis. auto 10.
  - apply _loop_frame in H. destruct H as (Hl & Hd & Hg & Hc & Hgl & Hr).
    auto 10.
Qed.

(** X16. No call changes the duration, the glyph palette or the energy
    callback of an engine.  The controls change through [setControl] only,
    the lines through [setLines] only, the running flag through [start()]
    and [stop()] only: a frame, [reset()] and [getCurrentRenderedText()]
    leave all three alone. *)
Theorem calls_change_only_their_own (Math_sin : number -> number)
    (random_stream : nat -> Q) (c : call) (s s' : State) :
  perform Math_sin random_stream c s = Some (tt, s') ->
  duration (this s') = duration (this s) /\
  glitchGlyphs (this s') = glitchGlyphs (this s) /\
  getEnergy (this s') = getEnergy (this s) /\
  (controls (this s') = controls (this s) \/
   exists name n, c = CallSetControl name (VNumber n)) /\
  (lines (this s') = lines (this s) \/ exists arg, c = CallSetLines arg) /\
  (running (this s') = running (this s) \/ c = CallStart \/ c = CallStop).
Proof. apply perform_frame. Qed.

(** The theorem for a frame on the running sample engine. *)
Lemma calls_change_only_their_own_witness :
  let c := CallTick 1 (Fin 3500) in
  let s' := default sample_running
              (perform_all (fun _ => Fin 1) (fun _ => 0.5) [c] sample_running) in
  duration (this s') = duration (this sample_running) /\
  glitchGlyphs (this s') = glitchGlyphs (this sample_running) /\
  getEnergy (this s') = getEnergy (this sample_running) /\
  (controls (this s') = controls (this sample_running) \/
   exists name n, c = CallSetControl name (VNumber n)) /\
  (lines (this s') = lines (this sample_running) \/
   exists arg, c = CallSetLines arg) /\
  (running (this s') = running (this sample_running) \/
   c = CallStart \/ c = CallStop).
Proof.
  intros c s'.
  apply (calls_change_only_their_own (fun _ => Fin 1) (fun _ => 0.5) c
           sample_running s').
  vm_compute. reflexivity.
Defined.

(** X17. In every state an engine can reach, the duration is positive, the
    palette is the built-in one, and [textSpeed] and [textGlitch] both have
    a stored value: no call removes a control or empties the palette. *)
Theorem reachable_configuration (Math_sin : number -> number)
    (random_stream : nat -> Q) (s : State) :
  reachable Math_sin random_stream s ->
  (duration (this s) >? Fin 0)%js = true /\
  glitchGlyphs (this s) = default_glyphs /\
  is_Some (controls (this s) !! "textSpeed") /\
  is_Some (controls (this s) !! "textGlitch").
Proof.
  induction 1 as [options e w Hc | s c s' _ IH Hcall].
  - unfold constructor in Hc.
    destruct (negb (Options.element options)); [discriminate |].
    injection Hc as <-. cbn [this duration glitchGlyphs controls].
    split.
    { apply constructor_duration_positive. }
    split; [reflexivity |].
    split; apply lookup_union_is_Some; right; eexists; reflexivity.
  - destruct IH as (Hd & Hg & Hs & Ht).
    pose proof (perform_frame _ _ _ _ _ Hcall) as (Ed & Eg & _ & Hctl & _ & _).
    rewrite Ed, Eg. split; [exact Hd |]. split; [exact Hg |].
    destruct Hctl as [-> | (name & n & ->)]; [split; assumption |].
    simpl in Hcall. injection Hcall as <-. cbn [this controls set_controls].
    unfold assign_control.
    destruct (String.eqb name "__proto__"); [split; assumption |].
    split; apply lookup_insert_is_Some'; right; assumption.
Qed.

(** The theorem on the sample life. *)
Lemma reachable_configuration_witness :
  (duration (this sample_reached) >? Fin 0)%js = true /\
  glitchGlyphs (this sample_reached) = default_glyphs /\
  is_Some (controls (this sample_reached) !! "textSpeed") /\
  is_Some (controls (this sample_reached) !! "textGlitch").
Proof.
  apply (reachable_configuration (fun _ => Fin 1) (fun _ => 0.5) sample_reached).
  apply (reachable_perform_all (fun _ => Fin 1) (fun _ => 0.5)
           sample_history sample_new).
  - apply (reachable_new _ _ sample_options (this sample_new) fresh_world).
    reflexivity.
  - vm_compute. reflexivity.
Defined.

(** ** More on the glitch and the controls *)

(** A draw in [[0,1)] picks a glyph of a non-empty palette. *)
Lemma char_at_text_glyph (glyphs : jsstring) (r : Q) :
  0 <= r < 1 ->
  glyphs <> [] ->
  exists c,
    char_at_text glyphs (floor (Fin r * length_number glyphs)%js) = [c] /\
    c ∈ glyphs.
Proof.
  intros [Hr0 Hr1] Hne.
  cbv beta iota delta [length_number floor mul char_at_text].
  set (len := Z.of_nat (length glyphs)).
  assert (Hlen : (0 < len)%Z)
    by (subst len; destruct glyphs; simpl; [congruence | lia]).
  set (z := Qfloor (r * inject_Z len)).
  rewrite Qfloor_Z.
  assert (Hz0 : (0 <= z)%Z).
  { change 0%Z with (Qfloor 0). apply Qfloor_resp_le.
    apply Qmult_le_0_compat; [exact Hr0 |].
    change 0 with (inject_Z 0). rewrite <- Zle_Qle. lia. }
  assert (Hz1 : (z < len)%Z).
  { rewrite Zlt_Qlt. eapply Qle_lt_trans; [apply Qfloor_le |].
    assert (Hpos : 0 < inject_Z len).
    { change 0 with (inject_Z 0). rewrite <- Zlt_Qlt. exact Hlen. }
    nra. }
  rewrite Qeq_bool_refl. simpl.
  destruct (Z.leb_spec 0 z) as [_|H]; [| lia].
  destruct (glyphs !! Z.to_nat z) as [c|] eqn:E.
  - exists c. split; [reflexivity |]. eapply list_elem_of_lookup_2, E.
  - apply lookup_ge_None in E. subst len. lia.
Qed.

(** Every character the loop appends is the character it visited or a glyph
    of the palette. *)
Lemma _applyGlitch_for_alphabet (Math_sin : number -> number)
    (random_stream : nat -> Q) (gi t : number) (glyphs : jsstring)
    (rest : jsstring) :
  (forall n, 0 <= random_stream n < 1) ->
  glyphs <> [] ->
  forall (i : nat) (out : jsstring) (s : State),
  exists (out' : jsstring) (s' : State),
    _applyGlitch_for Math_sin random_stream gi t glyphs rest i out s
    = Some (out ++ out', s') /\
    forall (j : nat) (c : codeunit),
      out' !! j = Some c -> rest !! j = Some c \/ c ∈ glyphs.
Proof.
  intros Hrange Hne. induction rest as [|ch rest IH]; intros i out s.
  - exists [], s. simpl. rewrite app_nil_r. split; [reflexivity |].
    intros j c H. discriminate.
  - rewrite _applyGlitch_for_cons. destruct (is_separator ch).
    + destruct (IH (S i) (out ++ [ch]) s) as (out' & s' & Hrun & Hal).
      exists (ch :: out'), s'. rewrite Hrun, <- app_assoc.
      split; [reflexivity |].
      intros [|j] c Hj; simpl in *; [left; exact Hj | apply Hal, Hj].
    + match goal with |- context [if ?c then _ else _] => destruct c end.
      * destruct (char_at_text_glyph glyphs
                    (random_stream (S (random_calls (host s))))
                    (Hrange _) Hne) as (g & -> & Hg).
        destruct (IH (S i) (out ++ [g])
                     (mkState (this s) (next_random (next_random (host s)))))
          as (out' & s' & Hrun & Hal).
        exists (g :: out'), s'. rewrite Hrun, <- app_assoc.
        split; [reflexivity |].
        intros [|j] c Hj; simpl in *; [| apply Hal, Hj].
        injection Hj as <-. right. exact Hg.
      * destruct (IH (S i) (out ++ [ch])
                     (mkState (this s) (next_random (host s))))
          as (out' & s' & Hrun & Hal).
        exists (ch :: out'), s'. rewrite Hrun, <- app_assoc.
        split; [reflexivity |].
        intros [|j] c Hj; simpl in *; [left; exact Hj | apply Hal, Hj].
Qed.

(** X18. The glitch only ever writes glyphs of the palette: with draws in
    [[0,1)] and a non-empty palette, every character of the text
    [_applyGlitch] returns is the input character at that position or a
    character of [glitchGlyphs]. *)
Theorem glitch_draws_from_palette (Math_sin : number -> number)
    (random_stream : nat -> Q) (visibleText : jsstring)
    (phase energy : number) (s : State) :
  (forall n, 0 <= random_stream n < 1) ->
  glitchGlyphs (this s) <> [] ->
  exists (out : jsstring) (s' : State),
    _applyGlitch Math_sin random_stream visibleText phase energy s
    = Some (out, s') /\
    forall (i : nat) (c : codeunit),
      out !! i = Some c ->
      visibleText !! i = Some c \/ c ∈ glitchGlyphs (this s).
Proof.
  intros Hrange Hne.
  destruct (_applyGlitch_eq Math_sin random_stream visibleText phase energy s)
    as (gi & _ & ->).
  destruct (_applyGlitch_for_alphabet Math_sin random_stream gi
              (elapsed (this s)) (glitchGlyphs (this s)) visibleText
              Hrange Hne 0%nat [] s) as (out & s' & Hrun & Hal).
  exists out, s'. split; [exact Hrun | exact Hal].
Qed.

(** The theorem on the text [A-1 /B] with every draw 0. *)
Lemma glitch_draws_from_palette_witness :
  exists (out : jsstring) (s' : State),
    _applyGlitch (fun _ => Fin 1) (fun _ => 0) [65; 45; 49; 32; 47; 66]%N
                 (Fin 0.5) (Fin 1) (sample_state (Fin 1) (Fin 1))
    = Some (out, s') /\
    forall (i : nat) (c : codeunit),
      out !! i = Some c ->
      [65; 45; 49; 32; 47; 66]%N !! i = Some c \/
      c ∈ glitchGlyphs (this (sample_state (Fin 1) (Fin 1))).
Proof.
  apply (glitch_draws_from_palette (fun _ => Fin 1) (fun _ => 0)
           [65; 45; 49; 32; 47; 66]%N (Fin 0.5) (Fin 1)
           (sample_state (Fin 1) (Fin 1))).
  - intros n. split; vm_compute; congruence.
  - vm_compute. congruence.
Defined.

(** At a quiet intensity no non-negative draw is below the probability,
    whatever the local factor. *)
Lemma quiet_never_fires (gi local : number) (r : Q) :
  quiet gi -> 0 <= r -> (Fin r <? gi * local)%js = false.
Proof.
  intros Hq Hr. destruct gi as [g| | |]; simpl in Hq; try contradiction.
  - destruct local as [y| | |]; simpl.
    + assert (E : Qle_bool (g * y) r = true).
      { apply Qle_bool_iff. rewrite Hq. lra. }
      rewrite E. reflexivity.
    + unfold Qsign. apply Qeq_alt in Hq. rewrite Hq. reflexivity.
    + unfold Qsign. apply Qeq_alt in Hq. rewrite Hq. reflexivity.
    + reflexivity.
  - destruct local; reflexivity.
Qed.

Lemma _applyGlitch_for_quiet (Math_sin : number -> number)
    (random_stream : nat -> Q) (gi t : number) (glyphs : jsstring)
    (rest : jsstring) :
  quiet gi ->
  (forall n, 0 <= random_stream n) ->
  forall (i : nat) (out : jsstring) (s : State),
  exists s' : State,
    _applyGlitch_for Math_sin random_stream gi t glyphs rest i out s
    = Some (out ++ rest, s') /\
    this s' = this s.
Proof.
  intros Hq Hrange. induction rest as [|ch rest IH]; intros i out s.
  - exists s. simpl. rewrite app_nil_r. split; reflexivity.
  - rewrite _applyGlitch_for_cons. destruct (is_separator ch).
    + destruct (IH (S i) (out ++ [ch]) s) as (s' & Hrun & Hthis).
      exists s'. rewrite Hrun, <- app_assoc. split; [reflexivity | exact Hthis].
    + rewrite quiet_never_fires by (try exact Hq; apply Hrange).
      destruct (IH (S i) (out ++ [ch])
                   (mkState (this s) (next_random (host s))))
        as (s' & Hrun & Hthis).
      exists s'. rewrite Hrun, <- app_assoc. split; [reflexivity | exact Hthis].
Qed.

(** The intensity is a clamp: in the unit interval or [NaN]. *)
Lemma glitchIntensity_quiet (e : Engine) (phase energy : number) :
  (Fin 0 <? glitchIntensity e phase energy)%js = false ->
  quiet (glitchIntensity e phase energy).
Proof.
  unfold glitchIntensity. cbv zeta. set (x := (_ + _)%js).
  intros H. pose proof (_clamp01_in_unit x) as Hu.
  destruct x as [q| | |] eqn:Ex; try (vm_compute in H; discriminate);
    try exact I; try (simpl; reflexivity).
  specialize (Hu eq_refl).
  destruct (_clamp01 (Fin q)) as [g| | |]; simpl in Hu; try contradiction.
  simpl. unfold lt in H.
  destruct (Qle_bool g 0) eqn:E; [| discriminate].
  apply Qle_bool_true in E. lra.
Qed.

(** X19. When the glitch intensity is not positive (zero, as with
    [textGlitch] 0 and no energy, or [NaN]) and the draws are not negative,
    [_applyGlitch] returns the text it was given, character for character,
    and leaves the engine as it was. *)
Theorem glitch_silent_at_zero_intensity (Math_sin : number -> number)
    (random_stream : nat -> Q) (visibleText : jsstring)
    (phase energy : number) (s : State) :
  (Fin 0 <? glitchIntensity (this s) phase energy)%js = false ->
  (forall n, 0 <= random_stream n) ->
  exists s' : State,
    _applyGlitch Math_sin random_stream visibleText phase energy s
    = Some (visibleText, s') /\
    this s' = this s.
Proof.
  intros Hgi Hrange. apply glitchIntensity_quiet in Hgi.
  destruct (_applyGlitch_eq Math_sin random_stream visibleText phase energy s)
    as (gi & -> & ->).
  destruct (_applyGlitch_for_quiet Math_sin random_stream _
              (elapsed (this s)) (glitchGlyphs (this s)) visibleText
              Hgi Hrange 0%nat [] s) as (s' & Hrun & Hthis).
  exists s'. split; [exact Hrun | exact Hthis].
Qed.

(** The theorem on the sample engine ([textGlitch] 0) without energy. *)
Lemma glitch_silent_at_zero_intensity_witness :
  exists s' : State,
    _applyGlitch (fun _ => Fin 1) (fun _ => 0) [65; 45; 49]%N
                 (Fin 0.5) (Fin 0) (sample_state (Fin 1) (Fin 0))
    = Some ([65; 45; 49]%N, s') /\
    this s' = this (sample_state (Fin 1) (Fin 0)).
Proof.
  apply (glitch_silent_at_zero_intensity (fun _ => Fin 1) (fun _ => 0)
           [65; 45; 49]%N (Fin 0.5) (Fin 0) (sample_state (Fin 1) (Fin 0))).
  - vm_compute. reflexivity.
  - intros n. vm_compute. congruence.
Defined.

(** X20. A number stored with [setControl] under a name other than
    [__proto__] is what the controls hold under that name afterwards; every
    other control, every other field of the engine (lines, duration, energy
    callback, palette, index, elapsed, running flag, remembered timestamp)
    and the host are untouched, and of two numbers stored under one name the
    later one stays. *)
Theorem setControl_round_trip (name : string) (m n : number) (s : State) :
  name <> "__proto__" ->
  exists s' : State,
    setControl name (VNumber n) s = Some (tt, s') /\
    controls (this s') !! name = Some n /\
    (forall other, other <> name ->
       controls (this s') !! other = controls (this s) !! other) /\
    lines (this s') = lines (this s) /\
    duration (this s') = duration (this s) /\
    getEnergy (this s') = getEnergy (this s) /\
    glitchGlyphs (this s') = glitchGlyphs (this s) /\
    index (this s') = index (this s) /\
    elapsed (this s') = elapsed (this s) /\
    running (this s') = running (this s) /\
    _lastTs (this s') = _lastTs (this s) /\
    host s' = host s /\
    (setControl name (VNumber m) ;;; setControl name (VNumber n)) s
    = Some (tt, s').
Proof.
  intros Hname. eexists. split; [reflexivity |].
  cbn [this host controls set_controls lines duration getEnergy glitchGlyphs
       index elapsed running _lastTs].
  unfold assign_control.
  destruct (String.eqb_spec name "__proto__") as [E|_]; [contradiction |].
  split; [apply lookup_insert_eq |].
  split; [intros other Hother; apply lookup_insert_ne; congruence |].
  repeat (split; [reflexivity |]).
  unfold bind, setControl, write. cbn [this host controls set_controls].
  unfold assign_control.
  destruct (String.eqb_spec name "__proto__") as [E|_]; [contradiction |].
  rewrite insert_insert_eq. reflexivity.
Qed.

(** The theorem for [textGlitch] on the sample engine. *)
Lemma setControl_round_trip_witness :
  exists s' : State,
    setControl "textGlitch" (VNumber (Fin 0.8)) (sample_state (Fin 1) (Fin 0))
    = Some (tt, s') /\
    controls (this s') !! "textGlitch" = Some (Fin 0.8) /\
    (forall other, other <> "textGlitch" ->
       controls (this s') !! other
       = controls (this (sample_state (Fin 1) (Fin 0))) !! other) /\
    lines (this s') = lines (this (sample_state (Fin 1) (Fin 0))) /\
    duration (this s') = duration (this (sample_state (Fin 1) (Fin 0))) /\
    getEnergy (this s') = getEnergy (this (sample_state (Fin 1) (Fin 0))) /\
    glitchGlyphs (this s')
    = glitchGlyphs (this (sample_state (Fin 1) (Fin 0))) /\
    index (this s') = index (this (sample_state (Fin 1) (Fin 0))) /\
    elapsed (this s') = elapsed (this (sample_state (Fin 1) (Fin 0))) /\
    running (this s') = running (this (sample_state (Fin 1) (Fin 0))) /\
    _lastTs (this s') = _lastTs (this (sample_state (Fin 1) (Fin 0))) /\
    host s' = host (sample_state (Fin 1) (Fin 0)) /\
    (setControl "textGlitch" (VNumber (Fin 0.1)) ;;;
     setControl "textGlitch" (VNumber (Fin 0.8)))
      (sample_state (Fin 1) (Fin 0))
    = Some (tt, s').
Proof.
  apply (setControl_round_trip "textGlitch" (Fin 0.1) (Fin 0.8)
           (sample_state (Fin 1) (Fin 0))).
  discriminate.
Defined.

(** X22. [setLines] with a non-empty array starts the new lines from the
    top: the current line is the first element of the array, and the text
    shown right after is empty. *)
Theorem setLines_restarts_at_first_line (Math_sin : number -> number)
    (random_stream : nat -> Q) (x : jsstring) (xs : list jsstring)
    (s : State) :
  exists s1 s2 : State,
    setLines (VArray (x :: xs)) s = Some (tt, s1) /\
    current_line (this s1) = x /\
    getCurrentRenderedText Math_sin random_stream s1 = Some ([], s2).
Proof.
  eexists. 
  assert (Hset : setLines (VArray (x :: xs)) s
                 = Some (tt, mkState (set_elapsed (Fin 0)
                                        (set_index 0 (set_lines (x :: xs) (this s))))
                                     (host s))) by reflexivity.
  rewrite Hset. clear Hset.
  set (s1 := mkState _ _).
  rewrite getCurrentRenderedText_eq. cbv zeta.
  destruct (_safeEnergy_returns s1) as (energy & -> & _ & _).
  subst s1. cbn [this host elapsed duration set_elapsed set_index set_lines].
  rewrite blank_at_zero.
  eexists. split; [reflexivity |]. split; reflexivity.
Qed.
